(** * The entity cache of the blog client: Redux slices and their thunks

    A shallow embedding of the three Redux Toolkit slices of the client
    ([authSlice.ts], [blogSlice.ts], [commentSlice.ts]) together with the
    asynchronous thunks that talk to the Supabase gateway.

    - Reducers are pure functions [State -> Action -> State]; the Immer
      drafts of the source are written as record updates.
    - A thunk's payload creator is a program in a small free monad whose
      only effect is one awaited gateway request; [throw] / [try .. catch]
      of the source is an error layer over it.
    - JavaScript numbers that hold counts and page indices are modelled as
      [Z] (they stay far below 2^53 where [+ 1] and [- 1] are exact). *)

From Stdlib Require Import ZArith Ascii String.
From stdpp Require Import base decidable option numbers list strings.

Open Scope string_scope.
Open Scope Z_scope.

(** ** Entities ([lib/supabase] type declarations) *)

(** Modelled from the spec: the [User] type of [lib/supabase] is not among the
    sources; the identity is an opaque user id and an email. *)
Record User := { user_id_of : string; user_email : string }.

(** The raw credential session of [@supabase/supabase-js]; the slices only
    ever read its [user] field and test it for null. *)
Record Session := { access_token : string; session_user : User }.

(** Modelled from the spec: the [Blog] type of [lib/supabase] is not among the
    sources; the fields are those the thunks write and the pages read. *)
Record Blog := {
  blog_id : string;
  blog_user_id : string;
  blog_title : string;
  blog_content : string;
  blog_image_url : option string;
  blog_created_at : string;
  blog_updated_at : string
}.

(** The comment shape, as [CommentItemProps] spells it out. *)
Record Comment := {
  comment_id : string;
  comment_blog_id : string;
  comment_user_id : string;
  comment_content : string;
  comment_file_url : option string;
  comment_created_at : string;
  comment_updated_at : string
}.

(** ** The gateway boundary *)

(** Every error object the code touches ([PostgrestError], [AuthError], a
    plain [Error]) is read through its [message] only. *)
Record JsError := { message : string }.

(** A settled gateway promise: supabase-js declares it as the union of a
    success ([error: null]) and a failure ([data: null], [count: null]). *)
Inductive Response (T : Type) : Type :=
| Success (data : T)
| Failure (error : JsError).
Arguments Success {T} data.
Arguments Failure {T} error.

(** What [signUp] and [signInWithPassword] put in [data]. *)
Record AuthData := { data_user : option User; data_session : option Session }.

(** The requests the thunks issue, indexed by what a success carries. *)
Inductive Request : Type -> Type :=
(* from('blogs').select('*', { count: 'exact', head: true }) ; carries [count] *)
| blogs_count : Request (option Z)
(* from('blogs').select('*').order('created_at', desc).range(from, to) *)
| blogs_range (from to : Z) : Request (option (list Blog))
(* from('blogs').select('*').eq('id', id).single() *)
| blogs_single (id : string) : Request Blog
(* from('blogs').insert([{ title, content, image_url, user_id }]).select().single() *)
| blogs_insert (title content : string) (image_url : option string)
               (user_id : string) : Request Blog
(* from('blogs').update({ title, content, image_url, updated_at }).eq('id', id) *)
| blogs_update (id title content : string) (image_url : option string)
               (updated_at : string) : Request Blog
(* from('blogs').delete().eq('id', id) *)
| blogs_delete (id : string) : Request unit
(* from('comments').select('*').eq('blog_id', blogId).order('created_at', desc) *)
| comments_select (blog_id : string) : Request (option (list Comment))
| comments_insert (blog_id user_id content : string) (file_url : option string)
    : Request Comment
| comments_update (id content : string) (file_url : option string)
                  (updated_at : string) : Request Comment
| comments_delete (id : string) : Request unit
| auth_signUp (email password : string) : Request AuthData
| auth_signInWithPassword (email password : string) : Request AuthData
| auth_signOut : Request unit
| auth_getSession : Request (option Session).

(** The [count] field of a response: [null] on a failure. *)
Definition count_of (r : Response (option Z)) : option Z :=
  match r with
  | Success count => count
  | Failure _ => None
  end.

(** One request as it appears in the log of gateway calls. *)
Inductive Call : Type :=
| call {T : Type} (q : Request T).

(** A gateway answers every request.  A thunk issues at most two requests
    and they differ, so a function of the request is as general here as a
    stateful service. *)
Definition Gateway : Type := forall T : Type, Request T -> Response T.

(** ** Thunk programs *)

Module Thunk.

(** A program either returns or awaits one gateway request and goes on
    with the response. *)
Inductive Prog (A : Type) : Type :=
| Ret (a : A)
| Await {T : Type} (q : Request T) (k : Response T -> Prog A).
Arguments Ret {A} a.
Arguments Await {A T} q k.

Fixpoint bind {A B : Type} (p : Prog A) (f : A -> Prog B) : Prog B :=
  match p with
  | Ret a => f a
  | Await q k => Await q (fun r => bind (k r) f)
  end.

(** Running a program against a gateway: the value and the calls made,
    oldest first. *)
Fixpoint run {A : Type} (gw : Gateway) (p : Prog A) : A * list Call :=
  match p with
  | Ret a => (a, [])
  | Await q k =>
      let '(a, calls) := run gw (k (gw _ q)) in (a, call q :: calls)
  end.

(** The body of a [try] block: it ends with a value or with a thrown
    error object. *)
Definition Body (A : Type) : Type := Prog (JsError + A).

Definition ret {A : Type} (a : A) : Body A := Ret (inr a).
Definition throw {A : Type} (e : JsError) : Body A := Ret (inl e).
Definition await {T : Type} (q : Request T) : Body (Response T) :=
  Await q (fun r => Ret (inr r)).

Definition bindB {A B : Type} (p : Body A) (f : A -> Body B) : Body B :=
  bind p (fun x => match x with
                   | inl e => Ret (inl e)
                   | inr a => f a
                   end).

(** How an async thunk settles: [return v] fulfils it with [v],
    [return rejectWithValue(m)] rejects it with payload [m]. *)
Inductive Result (P : Type) : Type :=
| Fulfilled (payload : P)
| Rejected (payload : string).
Arguments Fulfilled {P} payload.
Arguments Rejected {P} payload.

(** [try { body } catch (error) { return handler(error) }] where the body
    ends in [return]. *)
Definition try_catch {P : Type} (body : Body P)
    (handler : JsError -> Result P) : Prog (Result P) :=
  bind body (fun x => Ret match x with
                          | inl e => handler e
                          | inr v => Fulfilled v
                          end).

Definition rejectWithValue {P : Type} (m : string) : Result P := Rejected m.

(** [if (error) throw error; return data;] on a settled response. *)
Definition data_or_throw {T : Type} (r : Response T) : Body T :=
  match r with
  | Failure error => throw error
  | Success data => ret data
  end.

End Thunk.

Import Thunk.

Notation "'let!' x ':=' c 'in' k" := (bindB c (fun x => k))
  (at level 10, x name, c at level 100, k at level 200).

(** ** Thunks and the actions they dispatch *)

Record FetchBlogsArg := { page : Z; limit : Z }.
Record FetchBlogsPayload := { payload_blogs : list Blog; payload_total : Z }.
Record CreateBlogArg :=
  { cb_title : string; cb_content : string; cb_imageUrl : option string }.
Record UpdateBlogArg :=
  { ub_id : string; ub_title : string; ub_content : string;
    ub_imageUrl : option string }.
Record CreateCommentArg :=
  { cc_blogId : string; cc_content : string; cc_fileUrl : option string }.
Record UpdateCommentArg :=
  { uc_id : string; uc_content : string; uc_fileUrl : option string }.
Record Credentials := { email : string; password : string }.
Record AuthPayload :=
  { payload_user : option User; payload_session : option Session }.

(** The thunks made by [createAsyncThunk], indexed by the type of their
    argument and of the payload they fulfil with. *)
Inductive Op : Type -> Type -> Type :=
| registerUser : Op Credentials AuthPayload
| loginUser : Op Credentials AuthPayload
| logoutUser : Op unit unit
| checkSession : Op unit AuthPayload
| fetchBlogs : Op FetchBlogsArg FetchBlogsPayload
| fetchBlogById : Op string Blog
| createBlog : Op CreateBlogArg Blog
| updateBlog : Op UpdateBlogArg Blog
| deleteBlog : Op string string
| fetchComments : Op string (list Comment)
| createComment : Op CreateCommentArg Comment
| updateComment : Op UpdateCommentArg Comment
| deleteComment : Op string string.

(** Every action the store can see: the plain actions of the three slices
    and, for each thunk, [thunk.pending], [thunk.fulfilled] (with the
    returned payload) and [thunk.rejected] (with the [rejectWithValue]
    payload).  Each slice reducer receives all of them. *)
Inductive Action : Type :=
| auth_clearError
| blogs_setPage (payload : Z)
| blogs_clearCurrentBlog
| blogs_clearError
| comments_clearComments
| comments_clearError
| pending {A P : Type} (op : Op A P)
| fulfilled {A P : Type} (op : Op A P) (payload : P)
| rejected {A P : Type} (op : Op A P) (payload : string).

(** The action a settled thunk dispatches. *)
Definition settle {A P : Type} (op : Op A P) (r : Result P) : Action :=
  match r with
  | Fulfilled payload => fulfilled op payload
  | Rejected payload => rejected op payload
  end.

(** ** The session store ([authSlice.ts]) *)

Module AuthSlice.

Record State := {
  user : option User;
  session : option Session;
  isAuthenticated : bool;
  loading : bool;
  error : option string
}.

Definition initialState : State :=
  {| user := None; session := None; isAuthenticated := false;
     loading := false; error := None |}.

Definition set_loading (b : bool) (s : State) : State :=
  {| user := user s; session := session s;
     isAuthenticated := isAuthenticated s; loading := b; error := error s |}.

Definition set_error (e : option string) (s : State) : State :=
  {| user := user s; session := session s;
     isAuthenticated := isAuthenticated s; loading := loading s; error := e |}.

(** [state.user = ..; state.session = ..; state.isAuthenticated = ..] *)
Definition set_identity (u : option User) (ss : option Session) (a : bool)
    (s : State) : State :=
  {| user := u; session := ss; isAuthenticated := a;
     loading := loading s; error := error s |}.

(** [!!session]: an object is truthy, [null] is not. *)
Definition truthy_session (ss : option Session) : bool :=
  match ss with
  | Some _ => true
  | None => false
  end.

Definition on_pending {A P : Type} (op : Op A P) (state : State) : State :=
  match op with
  | registerUser => set_error None (set_loading true state)
  | loginUser => set_error None (set_loading true state)
  | logoutUser => set_loading true state
  | _ => state
  end.

Definition on_fulfilled {A P : Type} (op : Op A P) : P -> State -> State :=
  match op in Op _ P return P -> State -> State with
  | registerUser => fun payload state =>
      set_identity (payload_user payload) (payload_session payload)
        (truthy_session (payload_session payload)) (set_loading false state)
  | loginUser => fun payload state =>
      set_identity (payload_user payload) (payload_session payload)
        (truthy_session (payload_session payload)) (set_loading false state)
  | logoutUser => fun _ state =>
      set_identity None None false (set_loading false state)
  | checkSession => fun payload state =>
      set_identity (payload_user payload) (payload_session payload)
        (truthy_session (payload_session payload)) state
  | _ => fun _ state => state
  end.

Definition on_rejected {A P : Type} (op : Op A P) (payload : string)
    (state : State) : State :=
  match op with
  | registerUser => set_error (Some payload) (set_loading false state)
  | loginUser => set_error (Some payload) (set_loading false state)
  | logoutUser => set_error (Some payload) (set_loading false state)
  | _ => state
  end.

Definition reducer (state : State) (action : Action) : State :=
  match action with
  | auth_clearError => set_error None state
  | pending op => on_pending op state
  | fulfilled op payload => on_fulfilled op payload state
  | rejected op payload => on_rejected op payload state
  | _ => state
  end.

End AuthSlice.

(** ** The payload creators *)

(** What a payload creator reads besides its argument: the [auth] slice of
    [getState()] and the clock behind [new Date().toISOString()]. *)
Record ThunkEnv := { getState_auth : AuthSlice.State; now_iso : string }.

(** [state.auth.user?.id]: [undefined] when there is no user. *)
Definition userId_of (env : ThunkEnv) : option string :=
  option_map user_id_of (AuthSlice.user (getState_auth env)).

(** [!userId] for a [string | undefined]: true on [undefined] and on the
    empty string. *)
Definition not_userId (userId : option string) : bool :=
  match userId with
  | None => true
  | Some id => bool_decide (id = "")
  end.

(** [count || 0] on a [number | null]. *)
Definition count_or_zero (count : option Z) : Z :=
  match count with
  | None => 0
  | Some n => if n =? 0 then 0 else n
  end.

(** [data || []] on an array or [null]. *)
Definition data_or_empty {X : Type} (data : option (list X)) : list X :=
  match data with
  | None => []
  | Some l => l
  end.

Definition not_authenticated : JsError :=
  {| message := "User not authenticated" |}.

(** The common [catch (error) { return rejectWithValue(error.message) }]. *)
Definition catch_reject {P : Type} (error : JsError) : Result P :=
  rejectWithValue (message error).

(** One payload creator per thunk, statement by statement.  In the two
    creates, past the [if (!userId) throw ..] check [userId] is a non-empty
    string, and [default] merely unwraps it for the request. *)
Definition payloadCreator {A P : Type} (op : Op A P)
    : A -> ThunkEnv -> Prog (Result P) :=
  match op in Op A P return A -> ThunkEnv -> Prog (Result P) with
  | registerUser => fun arg _ =>
      try_catch
        (let! r := await (auth_signUp (email arg) (password arg)) in
         let! data := data_or_throw r in
         ret {| payload_user := data_user data;
                payload_session := data_session data |})
        catch_reject
  | loginUser => fun arg _ =>
      try_catch
        (let! r := await (auth_signInWithPassword (email arg) (password arg)) in
         let! data := data_or_throw r in
         ret {| payload_user := data_user data;
                payload_session := data_session data |})
        catch_reject
  | logoutUser => fun _ _ =>
      try_catch
        (let! r := await auth_signOut in
         let! _ := data_or_throw r in
         ret tt)
        catch_reject
  | checkSession => fun _ _ =>
      try_catch
        (let! r := await auth_getSession in
         let! session := data_or_throw r in
         ret {| payload_user := option_map session_user session;
                payload_session := session |})
        catch_reject
  | fetchBlogs => fun arg _ =>
      try_catch
        (let from := (page arg - 1) * limit arg in
         let to := from + limit arg - 1 in
         let! cr := await blogs_count in
         let count := count_of cr in
         let! lr := await (blogs_range from to) in
         let! data := data_or_throw lr in
         ret {| payload_blogs := data_or_empty data;
                payload_total := count_or_zero count |})
        catch_reject
  | fetchBlogById => fun id _ =>
      try_catch
        (let! r := await (blogs_single id) in
         let! data := data_or_throw r in
         ret data)
        catch_reject
  | createBlog => fun arg env =>
      try_catch
        (let userId := userId_of env in
         if not_userId userId then throw not_authenticated
         else
           let! r := await (blogs_insert (cb_title arg) (cb_content arg)
                              (cb_imageUrl arg) (default "" userId)) in
           let! data := data_or_throw r in
           ret data)
        catch_reject
  | updateBlog => fun arg env =>
      try_catch
        (let! r := await (blogs_update (ub_id arg) (ub_title arg)
                            (ub_content arg) (ub_imageUrl arg) (now_iso env)) in
         let! data := data_or_throw r in
         ret data)
        catch_reject
  | deleteBlog => fun id _ =>
      try_catch
        (let! r := await (blogs_delete id) in
         let! _ := data_or_throw r in
         ret id)
        catch_reject
  | fetchComments => fun blogId _ =>
      try_catch
        (let! r := await (comments_select blogId) in
         let! data := data_or_throw r in
         ret (data_or_empty data))
        catch_reject
  | createComment => fun arg env =>
      try_catch
        (let userId := userId_of env in
         if not_userId userId then throw not_authenticated
         else
           let! r := await (comments_insert (cc_blogId arg) (default "" userId)
                              (cc_content arg) (cc_fileUrl arg)) in
           let! data := data_or_throw r in
           ret data)
        catch_reject
  | updateComment => fun arg env =>
      try_catch
        (let! r := await (comments_update (uc_id arg) (uc_content arg)
                            (uc_fileUrl arg) (now_iso env)) in
         let! data := data_or_throw r in
         ret data)
        catch_reject
  | deleteComment => fun id _ =>
      try_catch
        (let! r := await (comments_delete id) in
         let! _ := data_or_throw r in
         ret id)
        catch_reject
  end.

(** [Array.prototype.findIndex]: the first index whose element passes the
    test, [-1] when none does. *)
Fixpoint findIndex {X : Type} (test : X -> bool) (l : list X) : Z :=
  match l with
  | [] => -1
  | x :: l' =>
      if test x then 0
      else let i := findIndex test l' in
           if i =? -1 then -1 else i + 1
  end.

(** ** The post cache ([blogSlice.ts]) *)

Module BlogSlice.

Record Pagination := { page : Z; limit : Z; total : Z }.

Record State := {
  blogs : list Blog;
  currentBlog : option Blog;
  pagination : Pagination;
  loading : bool;
  error : option string
}.

Definition initialState : State :=
  {| blogs := []; currentBlog := None;
     pagination := {| page := 1; limit := 5; total := 0 |};
     loading := false; error := None |}.

Definition set_blogs (l : list Blog) (s : State) : State :=
  {| blogs := l; currentBlog := currentBlog s; pagination := pagination s;
     loading := loading s; error := error s |}.

Definition set_currentBlog (b : option Blog) (s : State) : State :=
  {| blogs := blogs s; currentBlog := b; pagination := pagination s;
     loading := loading s; error := error s |}.

Definition set_page (p : Z) (s : State) : State :=
  {| blogs := blogs s; currentBlog := currentBlog s;
     pagination := {| page := p; limit := limit (pagination s);
                      total := total (pagination s) |};
     loading := loading s; error := error s |}.

Definition set_total (t : Z) (s : State) : State :=
  {| blogs := blogs s; currentBlog := currentBlog s;
     pagination := {| page := page (pagination s);
                      limit := limit (pagination s); total := t |};
     loading := loading s; error := error s |}.

Definition set_loading (b : bool) (s : State) : State :=
  {| blogs := blogs s; currentBlog := currentBlog s;
     pagination := pagination s; loading := b; error := error s |}.

Definition set_error (e : option string) (s : State) : State :=
  {| blogs := blogs s; currentBlog := currentBlog s;
     pagination := pagination s; loading := loading s; error := e |}.

(** [state.currentBlog?.id === id]: false when the slot is [null]. *)
Definition currentBlog_is (id : string) (s : State) : bool :=
  match currentBlog s with
  | Some blog => bool_decide (blog_id blog = id)
  | None => false
  end.

Definition on_pending {A P : Type} (op : Op A P) (state : State) : State :=
  match op with
  | fetchBlogs | fetchBlogById | createBlog | updateBlog | deleteBlog =>
      set_error None (set_loading true state)
  | _ => state
  end.

Definition on_fulfilled {A P : Type} (op : Op A P) : P -> State -> State :=
  match op in Op _ P return P -> State -> State with
  | fetchBlogs => fun payload state =>
      let state := set_loading false state in
      let state := set_blogs (payload_blogs payload) state in
      set_total (payload_total payload) state
  | fetchBlogById => fun payload state =>
      let state := set_loading false state in
      set_currentBlog (Some payload) state
  | createBlog => fun payload state =>
      let state := set_loading false state in
      let state := set_blogs (payload :: blogs state) state in
      set_total (total (pagination state) + 1) state
  | updateBlog => fun payload state =>
      let state := set_loading false state in
      let index :=
        findIndex (fun blog => bool_decide (blog_id blog = blog_id payload))
                  (blogs state) in
      let state :=
        if negb (index =? -1)
        then set_blogs (<[Z.to_nat index := payload]> (blogs state)) state
        else state in
      if currentBlog_is (blog_id payload) state
      then set_currentBlog (Some payload) state
      else state
  | deleteBlog => fun payload state =>
      let state := set_loading false state in
      let state :=
        set_blogs (filter (fun blog => blog_id blog <> payload) (blogs state))
                  state in
      let state := set_total (total (pagination state) - 1) state in
      if currentBlog_is payload state
      then set_currentBlog None state
      else state
  | _ => fun _ state => state
  end.

Definition on_rejected {A P : Type} (op : Op A P) (payload : string)
    (state : State) : State :=
  match op with
  | fetchBlogs | fetchBlogById | createBlog | updateBlog | deleteBlog =>
      set_error (Some payload) (set_loading false state)
  | _ => state
  end.

Definition reducer (state : State) (action : Action) : State :=
  match action with
  | blogs_setPage payload => set_page payload state
  | blogs_clearCurrentBlog => set_currentBlog None state
  | blogs_clearError => set_error None state
  | pending op => on_pending op state
  | fulfilled op payload => on_fulfilled op payload state
  | rejected op payload => on_rejected op payload state
  | _ => state
  end.

End BlogSlice.

(** ** The comment cache ([commentSlice.ts]) *)

Module CommentSlice.

Record State := {
  comments : list Comment;
  loading : bool;
  error : option string
}.

Definition initialState : State :=
  {| comments := []; loading := false; error := None |}.

Definition set_comments (l : list Comment) (s : State) : State :=
  {| comments := l; loading := loading s; error := error s |}.

Definition set_loading (b : bool) (s : State) : State :=
  {| comments := comments s; loading := b; error := error s |}.

Definition set_error (e : option string) (s : State) : State :=
  {| comments := comments s; loading := loading s; error := e |}.

Definition on_pending {A P : Type} (op : Op A P) (state : State) : State :=
  match op with
  | fetchComments | createComment | updateComment | deleteComment =>
      set_error None (set_loading true state)
  | _ => state
  end.

Definition on_fulfilled {A P : Type} (op : Op A P) : P -> State -> State :=
  match op in Op _ P return P -> State -> State with
  | fetchComments => fun payload state =>
      let state := set_loading false state in
      set_comments payload state
  | createComment => fun payload state =>
      let state := set_loading false state in
      set_comments (payload :: comments state) state
  | updateComment => fun payload state =>
      let state := set_loading false state in
      let index :=
        findIndex
          (fun comment => bool_decide (comment_id comment = comment_id payload))
          (comments state) in
      if negb (index =? -1)
      then set_comments (<[Z.to_nat index := payload]> (comments state)) state
      else state
  | deleteComment => fun payload state =>
      let state := set_loading false state in
      set_comments
        (filter (fun comment => comment_id comment <> payload) (comments state))
        state
  | _ => fun _ state => state
  end.

Definition on_rejected {A P : Type} (op : Op A P) (payload : string)
    (state : State) : State :=
  match op with
  | fetchComments | createComment | updateComment | deleteComment =>
      set_error (Some payload) (set_loading false state)
  | _ => state
  end.

Definition reducer (state : State) (action : Action) : State :=
  match action with
  | comments_clearComments => set_comments [] state
  | comments_clearError => set_error None state
  | pending op => on_pending op state
  | fulfilled op payload => on_fulfilled op payload state
  | rejected op payload => on_rejected op payload state
  | _ => state
  end.

End CommentSlice.

(** ** Running a thunk to completion *)

(** The action that ends a thunk started with [arg], and the gateway calls
    its payload creator made. *)
Definition outcome {A P : Type} (gw : Gateway) (op : Op A P) (arg : A)
    (env : ThunkEnv) : Action * list Call :=
  let '(r, calls) := run gw (payloadCreator op arg env) in (settle op r, calls).

(** A trace of actions applied to a slice, oldest first. *)
Definition reduce_all {S : Type} (reducer : S -> Action -> S)
    (actions : list Action) (s : S) : S :=
  fold_left reducer actions s.

(** ** Vocabulary of the properties *)

(** The slice a thunk belongs to: the prefix of its action type
    (['auth/login'], ['blogs/createBlog'], ['comments/fetchComments']). *)
Inductive Slice : Type := Auth | Blogs | Comments.

Definition owner {A P : Type} (op : Op A P) : Slice :=
  match op with
  | registerUser | loginUser | logoutUser | checkSession => Auth
  | fetchBlogs | fetchBlogById | createBlog | updateBlog | deleteBlog => Blogs
  | fetchComments | createComment | updateComment | deleteComment => Comments
  end.

(** The write operations: create, update and delete on posts or comments. *)
Definition write_thunk {A P : Type} (op : Op A P) : bool :=
  match op with
  | createBlog | updateBlog | deleteBlog
  | createComment | updateComment | deleteComment => true
  | _ => false
  end.

(** A thunk with its argument and payload types hidden, to list thunks. *)
Inductive AnyOp : Type :=
| any {A P : Type} (op : Op A P).

Definition blog_thunks : list AnyOp :=
  [any fetchBlogs; any fetchBlogById; any createBlog; any updateBlog;
   any deleteBlog].

Definition comment_thunks : list AnyOp :=
  [any fetchComments; any createComment; any updateComment; any deleteComment].

Section StatusProtocol.

Context {S : Type}.
Variable reducer : S -> Action -> S.
Variable loading : S -> bool.
Variable error : S -> option string.

(** Starting the operation clears the prior error and sets loading. *)
Definition starts_clean {A P : Type} (op : Op A P) : Prop :=
  forall s : S,
    loading (reducer s (pending op)) = true /\
    error (reducer s (pending op)) = None.

(** Success clears loading. *)
Definition success_clears_loading {A P : Type} (op : Op A P) : Prop :=
  forall (s : S) (payload : P),
    loading (reducer s (fulfilled op payload)) = false.

(** Failure clears loading and sets the error message. *)
Definition failure_sets_error {A P : Type} (op : Op A P) : Prop :=
  forall (s : S) (m : string),
    loading (reducer s (rejected op m)) = false /\
    error (reducer s (rejected op m)) = Some m.

Definition follows_status_protocol (o : AnyOp) : Prop :=
  match o with
  | any op =>
      starts_clean op /\ success_clears_loading op /\ failure_sets_error op
  end.

End StatusProtocol.

(** The gateway was consulted by the program and answered its first request
    with the failure [e]. *)
Definition reports_failure {X : Type} (gw : Gateway) (p : Prog X)
    (e : JsError) : Prop :=
  match p with
  | Await q _ => gw _ q = Failure e
  | Ret _ => False
  end.

(** Successful deletes that a trace has applied since its last successful
    list fetch, counted along the trace. *)
Definition deletes_since_list (d : Z) (a : Action) : Z :=
  match a with
  | fulfilled op _ =>
      match op with
      | fetchBlogs => 0
      | deleteBlog => d + 1
      | _ => d
      end
  | _ => d
  end.

(** The total a fulfilled list fetch carries is a row count. *)
Definition carries_row_count (a : Action) : Prop :=
  match a with
  | fulfilled op payload =>
      match op in Op _ P return P -> Prop with
      | fetchBlogs => fun payload => 0 <= payload_total payload
      | _ => fun _ => True
      end payload
  | _ => True
  end.

(** The authenticated flag says exactly whether a raw session is stored. *)
Definition session_consistent (s : AuthSlice.State) : Prop :=
  AuthSlice.isAuthenticated s = true <-> AuthSlice.session s <> None.

(** ** Sample data *)

Definition sample_user : User :=
  {| user_id_of := "u-1"; user_email := "ann@example.org" |}.

Definition sample_blog (id : string) : Blog :=
  {| blog_id := id; blog_user_id := "u-1"; blog_title := "A";
     blog_content := "B"; blog_image_url := None;
     blog_created_at := "2024-05-01T10:00:00.000Z";
     blog_updated_at := "2024-05-01T10:00:00.000Z" |}.

Definition sample_comment (id : string) : Comment :=
  {| comment_id := id; comment_blog_id := "b-1"; comment_user_id := "u-1";
     comment_content := "nice"; comment_file_url := None;
     comment_created_at := "2024-05-02T10:00:00.000Z";
     comment_updated_at := "2024-05-02T10:00:00.000Z" |}.

(** A gateway whose every request fails with the same error. *)
Definition gateway_down (e : JsError) : Gateway := fun _ _ => Failure e.

(** A gateway whose every request succeeds. *)
Definition gateway_up : Gateway := fun T q =>
  match q in Request T return Response T with
  | blogs_count => Success (Some 47)
  | blogs_range _ _ => Success (Some [sample_blog "b-1"; sample_blog "b-2"])
  | blogs_single id => Success (sample_blog id)
  | blogs_insert _ _ _ _ => Success (sample_blog "b-new")
  | blogs_update id _ _ _ _ => Success (sample_blog id)
  | blogs_delete _ => Success tt
  | comments_select _ => Success (Some [sample_comment "c-1"])
  | comments_insert _ _ _ _ => Success (sample_comment "c-new")
  | comments_update id _ _ _ => Success (sample_comment id)
  | comments_delete _ => Success tt
  | auth_signUp _ _ =>
      Success {| data_user := Some sample_user; data_session := None |}
  | auth_signInWithPassword _ _ =>
      Success {| data_user := Some sample_user;
                 data_session := Some {| access_token := "jwt";
                                         session_user := sample_user |} |}
  | auth_signOut => Success tt
  | auth_getSession => Success None
  end.

(** A list fetch that works while the count fetch fails. *)
Definition gateway_count_down (e : JsError) : Gateway := fun T q =>
  match q in Request T return Response T with
  | blogs_count => Failure e
  | q' => gateway_up _ q'
  end.

(** A window of two posts while a third post, not in the window, is the
    focused one (the reader opened it from another page). *)
Definition focus_off_window : BlogSlice.State :=
  BlogSlice.set_currentBlog (Some (sample_blog "b-9"))
    (BlogSlice.set_blogs [sample_blog "b-1"; sample_blog "b-2"]
       BlogSlice.initialState).

(** The comment cache while a list fetch is in flight. *)
Definition comments_loading : CommentSlice.State :=
  CommentSlice.reducer
    (CommentSlice.set_comments [sample_comment "c-1"] CommentSlice.initialState)
    (pending fetchComments).

(** The session store after a failed login. *)
Definition login_failed : AuthSlice.State :=
  AuthSlice.reducer AuthSlice.initialState
    (rejected loginUser "Invalid login credentials").

(** A visitor opens a post directly and deletes it: the list was never
    fetched, so the total is still the initial 0. *)
Definition delete_before_any_list : list Action :=
  [pending fetchBlogById; fulfilled fetchBlogById (sample_blog "b-1");
   pending deleteBlog; fulfilled deleteBlog "b-1"].

(** A list fetch of 47 posts, one create and two deletes. *)
Definition list_create_delete_twice : list Action :=
  [pending fetchBlogs;
   fulfilled fetchBlogs
     {| payload_blogs := [sample_blog "b-1"; sample_blog "b-2"];
        payload_total := 47 |};
   fulfilled createBlog (sample_blog "b-new");
   fulfilled deleteBlog "b-1";
   fulfilled deleteBlog "b-404"].

Definition sample_update : UpdateBlogArg :=
  {| ub_id := "b-1"; ub_title := "A"; ub_content := "B"; ub_imageUrl := None |}.

Definition sample_comment_update : UpdateCommentArg :=
  {| uc_id := "c-1"; uc_content := "nice"; uc_fileUrl := None |}.

(** The environment of a visitor who never signed in. *)
Definition anonymous : ThunkEnv :=
  {| getState_auth := AuthSlice.initialState;
     now_iso := "2024-05-03T09:30:00.000Z" |}.

(** The environment of a signed-in user. *)
Definition signed_in : ThunkEnv :=
  {| getState_auth :=
       AuthSlice.set_identity (Some sample_user)
         (Some {| access_token := "jwt"; session_user := sample_user |}) true
         AuthSlice.initialState;
     now_iso := "2024-05-03T09:30:00.000Z" |}.

(** ** A thunk dispatched to completion *)

(** [await dispatch(thunk(arg))] with nothing interleaved: the slice sees
    [thunk.pending], then the action the payload creator settles to. *)
Definition dispatch {S A P : Type} (reducer : S -> Action -> S) (gw : Gateway)
    (op : Op A P) (arg : A) (env : ThunkEnv) (s : S) : S :=
  reducer (reducer s (pending op)) (fst (outcome gw op arg env)).

(** [thunk.fulfilled.match(result)] on the result of that thunk. *)
Definition is_fulfilled (a : Action) : bool :=
  match a with
  | fulfilled _ _ => true
  | _ => false
  end.


(** The slice an action belongs to, by the prefix of its type. *)
Definition slice_of_action (a : Action) : Slice :=
  match a with
  | auth_clearError => Auth
  | blogs_setPage _ | blogs_clearCurrentBlog | blogs_clearError => Blogs
  | comments_clearComments | comments_clearError => Comments
  | pending op => owner op
  | fulfilled op _ => owner op
  | rejected op _ => owner op
  end.

(** The requests that read rows or the session. *)
Definition is_read_call (c : Call) : bool :=
  match c with
  | call q =>
      match q with
      | blogs_count | blogs_range _ _ | blogs_single _
      | comments_select _ | auth_getSession => true
      | _ => false
      end
  end.

(** Replacing, in place, the first element that passes a test. *)
Fixpoint replace_first {X : Type} (test : X -> bool) (x : X) (l : list X)
    : list X :=
  match l with
  | [] => []
  | y :: l' => if test y then x :: l' else y :: replace_first test x l'
  end.

(** ** JavaScript values the pages test and cut *)

(** Truthiness of a [string | null]: [null] and [''] are falsy. *)
Definition truthy_string (o : option string) : bool :=
  match o with
  | Some s => negb (bool_decide (s = ""))
  | None => false
  end.

(** [s.split(sep)] for a one-character separator: never an empty array. *)
Fixpoint split (sep : ascii) (s : string) : list string :=
  match s with
  | EmptyString => [EmptyString]
  | String c s' =>
      if bool_decide (c = sep) then EmptyString :: split sep s'
      else match split sep s' with
           | seg :: rest => String c seg :: rest
           | [] => [String c EmptyString]
           end
  end.

(** [array.pop()] read for its value: the last element. *)
Definition pop (segments : list string) : string :=
  List.last segments EmptyString.

(** [file.name.split('.').pop()] *)
Definition fileExt (name : string) : string := pop (split "."%char name).

(** A chosen file, as far as the pages look at it. *)
Record File := { file_name : string }.

(** The storage bucket ['blog-images']: [upload] answers with its [error]
    field, [getPublicUrl] with [data.publicUrl]. *)
Record Storage := {
  upload : string -> File -> option JsError;
  getPublicUrl : string -> string
}.

(** What a submit handler did: the slice after it, the gateway calls and the
    uploads it made (oldest first) and where it navigated. *)
Record Handled (S : Type) := {
  store : S;
  gateway_calls : list Call;
  uploads : list string;
  navigated : option string
}.
Arguments store {S} _.
Arguments gateway_calls {S} _.
Arguments uploads {S} _.
Arguments navigated {S} _.

(** ** The list page ([BlogList]) *)

Module BlogList.

(** [Math.ceil(a / b)] on integers with a positive [b]. *)
Definition ceil_div (a b : Z) : Z := - ((- a) / b).

Definition totalPages (s : BlogSlice.State) : Z :=
  ceil_div (BlogSlice.total (BlogSlice.pagination s))
           (BlogSlice.limit (BlogSlice.pagination s)).

(** The actions [handlePageChange(newPage)] dispatches. *)
Definition handlePageChange (s : BlogSlice.State) (newPage : Z) : list Action :=
  if (1 <=? newPage) && (newPage <=? totalPages s)
  then [blogs_setPage newPage]
  else [].

(** The argument of the [fetchBlogs] the page effect dispatches. *)
Definition effect_arg (s : BlogSlice.State) : FetchBlogsArg :=
  {| page := BlogSlice.page (BlogSlice.pagination s);
     limit := BlogSlice.limit (BlogSlice.pagination s) |}.

End BlogList.

(** ** The register page ([Register]) *)

Module Register.

Record Form := {
  form_email : string;
  form_password : string;
  form_confirmPassword : string
}.

Definition handleSubmit (gw : Gateway) (env : ThunkEnv) (form : Form)
    (s : AuthSlice.State) : Handled AuthSlice.State :=
  let s := AuthSlice.reducer s auth_clearError in
  if negb (bool_decide (form_password form = form_confirmPassword form))
  then {| store := s; gateway_calls := []; uploads := []; navigated := None |}
  else
    let arg := {| email := form_email form; password := form_password form |} in
    let result := outcome gw registerUser arg env in
    {| store := dispatch AuthSlice.reducer gw registerUser arg env s;
       gateway_calls := snd result;
       uploads := [];
       navigated := if is_fulfilled (fst result) then Some "/blogs" else None |}.

End Register.

(** ** The logout page ([Logout]) *)

Module Logout.

Definition handleLogout (gw : Gateway) (env : ThunkEnv) (s : AuthSlice.State)
    : Handled AuthSlice.State :=
  {| store := dispatch AuthSlice.reducer gw logoutUser tt env s;
     gateway_calls := snd (outcome gw logoutUser tt env);
     uploads := [];
     navigated := Some "/login" |}.

End Logout.

(** ** The comment form ([CommentForm]) *)

Module CommentForm.

Record Props := {
  blogId : string;
  editingCommentId : option string;
  initialFileUrl : option string
}.

(** The component state the handlers read. *)
Record Form := {
  content : string;
  file : option File;
  filePreview : option string
}.

(** [uploadFile()]: the URL it resolves to and the paths it uploaded;
    [now] is [Date.now()] as the template string prints it. *)
Definition uploadFile (st : Storage) (now : string) (user : option User)
    (props : Props) (form : Form) : option string * list string :=
  match file form, user with
  | Some f, Some u =>
      let fileExt := fileExt (file_name f) in
      let fileName :=
        "comments/" +:+ user_id_of u +:+ "/" +:+ now +:+ "." +:+ fileExt in
      match upload st fileName f with
      | Some uploadError => (initialFileUrl props, [fileName])
      | None => (Some (getPublicUrl st fileName), [fileName])
      end
  | _, _ => (initialFileUrl props, [])
  end.

(** The [fileUrl] that [handleSubmit] passes on, with the uploads made. *)
Definition resolve_fileUrl (st : Storage) (now : string) (user : option User)
    (props : Props) (form : Form) : option string * list string :=
  match file form with
  | Some _ => uploadFile st now user props form
  | None =>
      if negb (truthy_string (filePreview form))
         && truthy_string (initialFileUrl props)
      then (None, [])
      else (initialFileUrl props, [])
  end.

Definition handleSubmit (gw : Gateway) (st : Storage) (now : string)
    (env : ThunkEnv) (props : Props) (form : Form) (s : CommentSlice.State)
    : Handled CommentSlice.State :=
  let s := CommentSlice.reducer s comments_clearError in
  let '(fileUrl, ups) :=
    resolve_fileUrl st now (AuthSlice.user (getState_auth env)) props form in
  if truthy_string (editingCommentId props)
  then
    let arg := {| uc_id := default "" (editingCommentId props);
                  uc_content := content form; uc_fileUrl := fileUrl |} in
    {| store := dispatch CommentSlice.reducer gw updateComment arg env s;
       gateway_calls := snd (outcome gw updateComment arg env);
       uploads := ups; navigated := None |}
  else
    let arg := {| cc_blogId := blogId props; cc_content := content form;
                  cc_fileUrl := fileUrl |} in
    {| store := dispatch CommentSlice.reducer gw createComment arg env s;
       gateway_calls := snd (outcome gw createComment arg env);
       uploads := ups; navigated := None |}.

End CommentForm.

(** ** The create page ([BlogCreate]) *)

Module BlogCreate.

Record Form := {
  title : string;
  content : string;
  imageFile : option File
}.

Definition uploadImage (st : Storage) (now : string) (user : option User)
    (form : Form) : option string * list string :=
  match imageFile form, user with
  | Some f, Some u =>
      let fileExt := fileExt (file_name f) in
      let fileName := user_id_of u +:+ "/" +:+ now +:+ "." +:+ fileExt in
      match upload st fileName f with
      | Some uploadError => (None, [fileName])
      | None => (Some (getPublicUrl st fileName), [fileName])
      end
  | _, _ => (None, [])
  end.

Definition handleSubmit (gw : Gateway) (st : Storage) (now : string)
    (env : ThunkEnv) (form : Form) (s : BlogSlice.State)
    : Handled BlogSlice.State :=
  let '(imageUrl, ups) :=
    match imageFile form with
    | Some _ => uploadImage st now (AuthSlice.user (getState_auth env)) form
    | None => (None, [])
    end in
  let arg := {| cb_title := title form; cb_content := content form;
                cb_imageUrl := imageUrl |} in
  let result := outcome gw createBlog arg env in
  {| store := dispatch BlogSlice.reducer gw createBlog arg env s;
     gateway_calls := snd result;
     uploads := ups;
     navigated := if is_fulfilled (fst result) then Some "/blogs" else None |}.

End BlogCreate.

(** ** The edit page ([BlogEdit]) *)

Module BlogEdit.

Record Form := {
  title : string;
  content : string;
  imageFile : option File;
  removeImage : bool
}.

(** [currentBlog?.image_url || null] *)
Definition current_image (s : BlogSlice.State) : option string :=
  match BlogSlice.currentBlog s with
  | Some blog =>
      if truthy_string (blog_image_url blog) then blog_image_url blog else None
  | None => None
  end.

Definition uploadImage (st : Storage) (now : string) (user : option User)
    (form : Form) (s : BlogSlice.State) : option string * list string :=
  match imageFile form, user with
  | Some f, Some u =>
      let fileExt := fileExt (file_name f) in
      let fileName := user_id_of u +:+ "/" +:+ now +:+ "." +:+ fileExt in
      match upload st fileName f with
      | Some uploadError => (current_image s, [fileName])
      | None => (Some (getPublicUrl st fileName), [fileName])
      end
  | _, _ => (current_image s, [])
  end.

(** The [imageUrl] that [handleSubmit] passes on, with the uploads made. *)
Definition resolve_imageUrl (st : Storage) (now : string) (user : option User)
    (form : Form) (s : BlogSlice.State) : option string * list string :=
  let imageUrl := current_image s in
  let imageUrl :=
    if removeImage form && negb (bool_decide (is_Some (imageFile form)))
    then None else imageUrl in
  match imageFile form with
  | Some _ => uploadImage st now user form s
  | None => (imageUrl, [])
  end.

(** [id] is the route parameter: [undefined] when the route has none. *)
Definition handleSubmit (gw : Gateway) (st : Storage) (now : string)
    (env : ThunkEnv) (id : option string) (form : Form) (s : BlogSlice.State)
    : Handled BlogSlice.State :=
  if negb (truthy_string id)
  then {| store := s; gateway_calls := []; uploads := []; navigated := None |}
  else
    let id := default "" id in
    let '(imageUrl, ups) :=
      resolve_imageUrl st now (AuthSlice.user (getState_auth env)) form s in
    let arg := {| ub_id := id; ub_title := title form;
                  ub_content := content form; ub_imageUrl := imageUrl |} in
    let result := outcome gw updateBlog arg env in
    {| store := dispatch BlogSlice.reducer gw updateBlog arg env s;
       gateway_calls := snd result;
       uploads := ups;
       navigated :=
         if is_fulfilled (fst result) then Some ("/blogs/" +:+ id) else None |}.

End BlogEdit.

(** ** Sample data for the pages *)

(** A bucket that rejects every upload. *)
Definition storage_full : Storage :=
  {| upload := fun _ _ => Some {| message := "Payload too large" |};
     getPublicUrl := fun path => "https://cdn.example.org/" +:+ path |}.

(** A bucket that accepts every upload. *)
Definition storage_ok : Storage :=
  {| upload := fun _ _ => None;
     getPublicUrl := fun path => "https://cdn.example.org/" +:+ path |}.

(** The character does not occur in the string. *)
Definition lacks (c : ascii) (s : string) : Prop :=
  ~ In c (list_ascii_of_string s).

(** A post as the gateway returns it after an edit. *)
Definition edited_blog (id : string) : Blog :=
  {| blog_id := id; blog_user_id := "u-1"; blog_title := "A, revised";
     blog_content := "B"; blog_image_url := None;
     blog_created_at := "2024-05-01T10:00:00.000Z";
     blog_updated_at := "2024-05-03T09:30:00.000Z" |}.

(** The environment of a user who registered but holds no session yet. *)
Definition registered_unconfirmed : ThunkEnv :=
  {| getState_auth :=
       AuthSlice.reducer AuthSlice.initialState
         (fulfilled registerUser
            {| payload_user := Some sample_user; payload_session := None |});
     now_iso := "2024-05-03T09:30:00.000Z" |}.

(** The first page of a list of 47 posts, as a list fetch leaves it. *)
Definition forty_seven_posts : BlogSlice.State :=
  BlogSlice.reducer BlogSlice.initialState
    (fulfilled fetchBlogs
       {| payload_blogs :=
            [sample_blog "b-47"; sample_blog "b-46"; sample_blog "b-45";
             sample_blog "b-44"; sample_blog "b-43"];
          payload_total := 47 |}).


(** The comment form under a post, for a new comment. *)
Definition new_comment : CommentForm.Props :=
  {| CommentForm.blogId := "b-1";
     CommentForm.editingCommentId := None;
     CommentForm.initialFileUrl := None |}.

(** A form in which a new file was chosen. *)
Definition new_file_chosen : CommentForm.Form :=
  {| CommentForm.content := "nicer";
     CommentForm.file := Some {| file_name := "holiday.photo.png" |};
     CommentForm.filePreview := Some "data:image/png;base64,AAAA" |}.



(** * Properties *)

(** ** Helper lemmas on programs *)

Lemma run_bind {X Y : Type} (gw : Gateway) (p : Prog X) (f : X -> Prog Y) :
  run gw (bind p f) =
  let '(x, calls) := run gw p in
  let '(y, calls') := run gw (f x) in (y, (calls ++ calls')%list).
Proof.
  induction p as [x | T q k IH]; simpl.
  - destruct (run gw (f x)); reflexivity.
  - rewrite IH. destruct (run gw (k (gw T q))) as [x calls].
    destruct (run gw (f x)); reflexivity.
Qed.

(** The shape shared by every thunk that awaits one request: the response
    decides the result, and exactly that request is logged. *)
Lemma run_one_request {T P : Type} (gw : Gateway) (q : Request T)
    (f : T -> P) :
  run gw (try_catch (let! r := await q in
                     let! data := data_or_throw r in
                     ret (f data)) catch_reject) =
  (match gw _ q with
   | Success data => Fulfilled (f data)
   | Failure e => Rejected (message e)
   end, [call q]).
Proof.
  simpl. destruct (gw T q); reflexivity.
Qed.

(** ** Helper lemmas on [findIndex] *)

Lemma findIndex_bounds {X : Type} (test : X -> bool) (l : list X) :
  -1 <= findIndex test l < Z.of_nat (length l).
Proof.
  induction l as [| x l IH]; simpl; [lia |].
  destruct (test x); [lia |].
  destruct (Z.eqb_spec (findIndex test l) (-1)); lia.
Qed.

Lemma findIndex_none {X : Type} (test : X -> bool) (l : list X) :
  findIndex test l = -1 <-> Forall (fun x => test x = false) l.
Proof.
  induction l as [| x l IH]; simpl.
  - split; [constructor | reflexivity].
  - destruct (test x) eqn:Hx.
    + split; [discriminate |]. intros H. inversion H; congruence.
    + pose proof (findIndex_bounds test l) as Hb.
      destruct (Z.eqb_spec (findIndex test l) (-1)) as [He | Hne].
      * split; [| reflexivity]. intros _. constructor; [assumption |].
        apply IH, He.
      * split; [lia |]. intros H. inversion H; subst.
        exfalso. apply Hne, IH. assumption.
  Qed.

(** When [findIndex] finds something, it is the first element that passes. *)
Lemma findIndex_found {X : Type} (test : X -> bool) (l : list X) (i : Z) :
  findIndex test l = i -> i <> -1 ->
  exists x, l !! Z.to_nat i = Some x /\ test x = true /\
            Forall (fun y => test y = false) (take (Z.to_nat i) l).
Proof.
  revert i. induction l as [| x l IH]; simpl; intros i Hi Hne.
  - congruence.
  - destruct (test x) eqn:Hx.
    + subst i. exists x. simpl. repeat split; [assumption | constructor].
    + pose proof (findIndex_bounds test l) as Hb.
      destruct (Z.eqb_spec (findIndex test l) (-1)) as [He | Hn]; [congruence |].
      destruct (IH _ eq_refl Hn) as (y & Hy & Hty & Hpre).
      subst i. exists y.
      replace (Z.to_nat (findIndex test l + 1))
        with (S (Z.to_nat (findIndex test l))) by lia.
      simpl. repeat split; try assumption. constructor; assumption.
Qed.

(** ** Helper lemmas on the post cache *)

Lemma currentBlog_is_true (id : string) (s : BlogSlice.State) :
  BlogSlice.currentBlog_is id s = true <->
  exists blog, BlogSlice.currentBlog s = Some blog /\ blog_id blog = id.
Proof.
  unfold BlogSlice.currentBlog_is.
  destruct (BlogSlice.currentBlog s) as [blog |].
  - rewrite bool_decide_eq_true. split.
    + intros H. exists blog. auto.
    + intros (b & Hb & Hid). congruence.
  - split; [discriminate |]. intros (b & Hb & _). discriminate.
Qed.

Lemma absent_findIndex (id : string) (l : list Blog) :
  id ∉ map blog_id l ->
  findIndex (fun blog => bool_decide (blog_id blog = id)) l = -1.
Proof.
  intros Habs. apply findIndex_none. apply Forall_forall. intros b Hb.
  apply bool_decide_eq_false. intros Heq. apply Habs.
  apply list_elem_of_fmap. exists b. auto.
Qed.

(** The state a fulfilled delete leaves, field by field. *)
Lemma deleteBlog_fulfilled_eq (s : BlogSlice.State) (id : string) :
  BlogSlice.reducer s (fulfilled deleteBlog id) =
  {| BlogSlice.blogs :=
       filter (fun blog => blog_id blog <> id) (BlogSlice.blogs s);
     BlogSlice.currentBlog :=
       if BlogSlice.currentBlog_is id s then None else BlogSlice.currentBlog s;
     BlogSlice.pagination :=
       {| BlogSlice.page := BlogSlice.page (BlogSlice.pagination s);
          BlogSlice.limit := BlogSlice.limit (BlogSlice.pagination s);
          BlogSlice.total := BlogSlice.total (BlogSlice.pagination s) - 1 |};
     BlogSlice.loading := false;
     BlogSlice.error := BlogSlice.error s |}.
Proof.
  simpl.
  change (BlogSlice.currentBlog_is id (BlogSlice.set_total _ _))
    with (BlogSlice.currentBlog_is id s).
  destruct (BlogSlice.currentBlog_is id s); reflexivity.
Qed.

(** ** What the write thunks of the post cache settle to *)



(** The scenario of the specification: a window of 5 and a total of 47
    become a window of 6, led by the new post, and a total of 48. *)
Example create_scenario :
  let before :=
    BlogSlice.set_total 47
      (BlogSlice.set_blogs
         [sample_blog "b-47"; sample_blog "b-46"; sample_blog "b-45";
          sample_blog "b-44"; sample_blog "b-43"] BlogSlice.initialState) in
  let after :=
    reduce_all BlogSlice.reducer
      [pending createBlog;
       fst (outcome gateway_up createBlog
              {| cb_title := "A"; cb_content := "B"; cb_imageUrl := None |}
              signed_in)] before in
  length (BlogSlice.blogs after) = 6%nat /\
  BlogSlice.blogs after !! 0%nat = Some (sample_blog "b-new") /\
  BlogSlice.total (BlogSlice.pagination after) = 48.
Proof.
  repeat split.
Qed.

(** Page 10 of size 5 asks the gateway for the rows 45 to 49. *)
Example last_page_range :
  snd (outcome gateway_up fetchBlogs {| page := 10; limit := 5 |} anonymous) =
  [call blogs_count; call (blogs_range 45 49)].
Proof.
  reflexivity.
Qed.

(** A list fetch whose count request fails is fulfilled with a total of 0. *)
Example count_failure_scenario :
  outcome (gateway_count_down {| message := "timeout" |}) fetchBlogs
    {| page := 1; limit := 5 |} anonymous =
  (fulfilled fetchBlogs
     {| payload_blogs := [sample_blog "b-1"; sample_blog "b-2"];
        payload_total := 0 |},
   [call blogs_count; call (blogs_range 0 4)]).
Proof.
  reflexivity.
Qed.

(** ** The post cache: reconciliation after a write *)

(** C2. A successful Delete(id) removes every item with that id from the
    window and keeps the others in order, lowers the total by exactly 1
    whether or not the id was in the window, and empties the focused-post
    slot exactly when it holds the deleted id.  The delete thunk is
    fulfilled, with the id as payload, whenever the gateway answers its one
    request with a success. *)
Theorem deleteBlog_fulfilled_reconciles :
  forall (s : BlogSlice.State) (id : string),
    BlogSlice.blogs (BlogSlice.reducer s (fulfilled deleteBlog id)) =
      filter (fun blog => blog_id blog <> id) (BlogSlice.blogs s) /\
    (forall blog : Blog,
        blog ∈ BlogSlice.blogs (BlogSlice.reducer s (fulfilled deleteBlog id))
        <-> (blog ∈ BlogSlice.blogs s /\ blog_id blog <> id)) /\
    (id ∉ map blog_id
            (BlogSlice.blogs (BlogSlice.reducer s (fulfilled deleteBlog id)))) /\
    BlogSlice.total
      (BlogSlice.pagination (BlogSlice.reducer s (fulfilled deleteBlog id))) =
      BlogSlice.total (BlogSlice.pagination s) - 1 /\
    BlogSlice.currentBlog (BlogSlice.reducer s (fulfilled deleteBlog id)) =
      (if BlogSlice.currentBlog_is id s then None else BlogSlice.currentBlog s) /\
    (BlogSlice.currentBlog_is id s = true <->
       exists blog, BlogSlice.currentBlog s = Some blog /\ blog_id blog = id) /\
    BlogSlice.loading (BlogSlice.reducer s (fulfilled deleteBlog id)) = false /\
    (forall (gw : Gateway) (env : ThunkEnv),
        outcome gw deleteBlog id env =
        (match gw _ (blogs_delete id) with
         | Success _ => fulfilled deleteBlog id
         | Failure e => rejected deleteBlog (message e)
         end, [call (blogs_delete id)])).
Proof.
  intros s id. rewrite deleteBlog_fulfilled_eq. simpl.
  split_and!; try reflexivity.
  - intros blog. rewrite list_elem_of_filter. tauto.
  - intros H. apply list_elem_of_fmap in H. destruct H as (b & Hb & Hin).
    apply list_elem_of_filter in Hin. destruct Hin. congruence.
  - apply currentBlog_is_true.
  - intros gw env. unfold outcome, payloadCreator. rewrite run_one_request.
    destruct (gw _ (blogs_delete id)); reflexivity.
Qed.

(** C6. A successful post Create puts the created post at index 0 of the
    window, in front of the unchanged prior window, so the window is one
    longer, and it raises the total by exactly 1. *)
Theorem createBlog_fulfilled_prepends :
  forall (s : BlogSlice.State) (created : Blog),
    BlogSlice.blogs (BlogSlice.reducer s (fulfilled createBlog created)) =
      created :: BlogSlice.blogs s /\
    length (BlogSlice.blogs (BlogSlice.reducer s (fulfilled createBlog created))) =
      S (length (BlogSlice.blogs s)) /\
    BlogSlice.blogs (BlogSlice.reducer s (fulfilled createBlog created)) !! 0%nat =
      Some created /\
    BlogSlice.total
      (BlogSlice.pagination (BlogSlice.reducer s (fulfilled createBlog created))) =
      BlogSlice.total (BlogSlice.pagination s) + 1.
Proof.
  intros s created. simpl. repeat split.
Qed.

(** C8. A successful Update of a post whose id is not in the window leaves
    the window as it was (same items, same order, same length); the
    focused-post slot is replaced by the updated post when it holds that id
    and is left alone otherwise. *)
Theorem updateBlog_fulfilled_absent_from_window :
  forall (s : BlogSlice.State) (updated : Blog),
    blog_id updated ∉ map blog_id (BlogSlice.blogs s) ->
    BlogSlice.blogs (BlogSlice.reducer s (fulfilled updateBlog updated)) =
      BlogSlice.blogs s /\
    BlogSlice.currentBlog (BlogSlice.reducer s (fulfilled updateBlog updated)) =
      (if BlogSlice.currentBlog_is (blog_id updated) s
       then Some updated else BlogSlice.currentBlog s) /\
    (BlogSlice.currentBlog_is (blog_id updated) s = true <->
       exists blog, BlogSlice.currentBlog s = Some blog /\
                    blog_id blog = blog_id updated) /\
    BlogSlice.pagination (BlogSlice.reducer s (fulfilled updateBlog updated)) =
      BlogSlice.pagination s.
Proof.
  intros s updated Habs. simpl.
  rewrite (absent_findIndex _ _ Habs). simpl.
  change (BlogSlice.currentBlog_is (blog_id updated)
            (BlogSlice.set_loading false s))
    with (BlogSlice.currentBlog_is (blog_id updated) s).
  split_and!; try reflexivity.
  - destruct (BlogSlice.currentBlog_is (blog_id updated) s); reflexivity.
  - destruct (BlogSlice.currentBlog_is (blog_id updated) s); reflexivity.
  - apply currentBlog_is_true.
  - destruct (BlogSlice.currentBlog_is (blog_id updated) s); reflexivity.
Qed.

Lemma updateBlog_fulfilled_absent_from_window_witness :
  (blog_id (sample_blog "b-9") ∉ map blog_id (BlogSlice.blogs focus_off_window))
  /\
  (BlogSlice.blogs
     (BlogSlice.reducer focus_off_window (fulfilled updateBlog (sample_blog "b-9")))
   = BlogSlice.blogs focus_off_window /\
   BlogSlice.currentBlog
     (BlogSlice.reducer focus_off_window (fulfilled updateBlog (sample_blog "b-9")))
   = (if BlogSlice.currentBlog_is (blog_id (sample_blog "b-9")) focus_off_window
      then Some (sample_blog "b-9")
      else BlogSlice.currentBlog focus_off_window) /\
   (BlogSlice.currentBlog_is (blog_id (sample_blog "b-9")) focus_off_window = true
    <-> exists blog, BlogSlice.currentBlog focus_off_window = Some blog /\
                     blog_id blog = blog_id (sample_blog "b-9")) /\
   BlogSlice.pagination
     (BlogSlice.reducer focus_off_window (fulfilled updateBlog (sample_blog "b-9")))
   = BlogSlice.pagination focus_off_window).
Proof.
  assert (Habs : blog_id (sample_blog "b-9") ∉
                 map blog_id (BlogSlice.blogs focus_off_window)).
  { simpl. intros H.
    repeat (apply elem_of_cons in H; destruct H as [H | H]; [discriminate |]).
    inversion H. }
  split; [exact Habs |].
  exact (updateBlog_fulfilled_absent_from_window
           focus_off_window (sample_blog "b-9") Habs).
Defined.

(** ** The comment cache: clearing on scope change *)

(** C9, as the claim states it, fails: clearing while a list fetch is in
    flight empties the collection but the loading flag stays set. *)
Lemma clearComments_keeps_pending_loading :
  CommentSlice.loading comments_loading = true /\
  CommentSlice.comments
    (CommentSlice.reducer comments_loading comments_clearComments) = [] /\
  CommentSlice.loading
    (CommentSlice.reducer comments_loading comments_clearComments) = true.
Proof.
  repeat split.
Qed.

(** C9, amended. From every prior state the clear yields an empty comment
    collection and leaves the loading flag and the error as they were; so
    no loading flag is pending afterwards exactly when none was before. *)
Theorem clearComments_empties_only_the_collection :
  forall s : CommentSlice.State,
    CommentSlice.comments (CommentSlice.reducer s comments_clearComments) = [] /\
    CommentSlice.loading (CommentSlice.reducer s comments_clearComments) =
      CommentSlice.loading s /\
    CommentSlice.error (CommentSlice.reducer s comments_clearComments) =
      CommentSlice.error s.
Proof.
  intros s. repeat split.
Qed.

(** ** Loading and error bookkeeping *)

(** Case analysis on every branch condition left in the goal. *)
Ltac case_ifs :=
  repeat match goal with
         | |- context [if ?b then _ else _] => destruct b
         end.

(** One goal per thunk of the list and per clause of the protocol. *)
Ltac protocol_cases :=
  repeat first [apply Forall_nil_2 | apply Forall_cons_2];
  unfold follows_status_protocol, starts_clean, success_clears_loading,
    failure_sets_error;
  split_and!; intros; try split.

(** C3, as the claim states it, fails in the session store: starting a
    logout keeps the error of an earlier failed login, and a session check
    neither sets loading when it starts, nor clears it when it succeeds, nor
    records the message when it fails. *)
Lemma auth_status_protocol_broken :
  AuthSlice.error login_failed = Some "Invalid login credentials" /\
  AuthSlice.error (AuthSlice.reducer login_failed (pending logoutUser)) =
    Some "Invalid login credentials" /\
  AuthSlice.loading
    (AuthSlice.reducer AuthSlice.initialState (pending checkSession)) = false /\
  AuthSlice.loading
    (AuthSlice.reducer
       (AuthSlice.reducer AuthSlice.initialState (pending loginUser))
       (fulfilled checkSession
          {| payload_user := None; payload_session := None |})) = true /\
  AuthSlice.error
    (AuthSlice.reducer AuthSlice.initialState
       (rejected checkSession "Failed to fetch")) = None /\
  ~ follows_status_protocol AuthSlice.reducer AuthSlice.loading AuthSlice.error
      (any logoutUser) /\
  ~ follows_status_protocol AuthSlice.reducer AuthSlice.loading AuthSlice.error
      (any checkSession).
Proof.
  split_and!; try reflexivity.
  - intros (Hstart & _ & _). destruct (Hstart login_failed) as [_ Herr].
    discriminate Herr.
  - intros (Hstart & _ & _).
    destruct (Hstart AuthSlice.initialState) as [Hload _].
    discriminate Hload.
Qed.

(** C3, amended. Every operation of the post cache and of the comment
    cache, and register and login of the session store, clear the error and
    set loading when they start, clear loading when they complete and set
    the error message when they fail.  Logout sets loading when it starts,
    clears it on completion and sets the error message on failure.  The
    session check is silent: its start and its failure leave the session
    store as it is, and its success leaves loading and error as they are. *)
Theorem status_protocol_per_operation :
  Forall (follows_status_protocol BlogSlice.reducer BlogSlice.loading
            BlogSlice.error) blog_thunks /\
  Forall (follows_status_protocol CommentSlice.reducer CommentSlice.loading
            CommentSlice.error) comment_thunks /\
  Forall (follows_status_protocol AuthSlice.reducer AuthSlice.loading
            AuthSlice.error) [any registerUser; any loginUser] /\
  (forall s : AuthSlice.State,
      AuthSlice.loading (AuthSlice.reducer s (pending logoutUser)) = true) /\
  success_clears_loading AuthSlice.reducer AuthSlice.loading logoutUser /\
  failure_sets_error AuthSlice.reducer AuthSlice.loading AuthSlice.error
    logoutUser /\
  (forall s : AuthSlice.State,
      AuthSlice.reducer s (pending checkSession) = s) /\
  (forall (s : AuthSlice.State) (m : string),
      AuthSlice.reducer s (rejected checkSession m) = s) /\
  (forall (s : AuthSlice.State) (payload : AuthPayload),
      AuthSlice.loading (AuthSlice.reducer s (fulfilled checkSession payload)) =
        AuthSlice.loading s /\
      AuthSlice.error (AuthSlice.reducer s (fulfilled checkSession payload)) =
        AuthSlice.error s).
Proof.
  split_and!.
  - unfold blog_thunks. protocol_cases.
    all: cbv beta iota zeta delta
           [BlogSlice.reducer BlogSlice.on_pending BlogSlice.on_fulfilled
            BlogSlice.on_rejected].
    all: case_ifs; reflexivity.
  - unfold comment_thunks. protocol_cases.
    all: cbv beta iota zeta delta
           [CommentSlice.reducer CommentSlice.on_pending
            CommentSlice.on_fulfilled CommentSlice.on_rejected].
    all: case_ifs; reflexivity.
  - protocol_cases. all: reflexivity.
  - reflexivity.
  - intros s payload. reflexivity.
  - intros s m. split; reflexivity.
  - reflexivity.
  - reflexivity.
  - intros s payload. split; reflexivity.
Qed.

(** ** Invariants along traces of actions *)

Section TraceInvariant.

Context {S : Type}.
Variable reducer : S -> Action -> S.
Variable Inv : S -> Prop.
Hypothesis Inv_step : forall (s : S) (a : Action), Inv s -> Inv (reducer s a).

(** What every action preserves holds after any trace. *)
Lemma reduce_all_preserves (actions : list Action) (s : S) :
  Inv s -> Inv (reduce_all reducer actions s).
Proof.
  revert s. induction actions as [| a actions IH]; intros s Hs; simpl.
  - exact Hs.
  - apply IH, Inv_step, Hs.
Qed.

End TraceInvariant.

(** ** The session store: the authenticated flag *)

Lemma session_consistent_after_identity (u : option User)
    (ss : option Session) (s : AuthSlice.State) :
  session_consistent
    (AuthSlice.set_identity u ss (AuthSlice.truthy_session ss) s).
Proof.
  unfold session_consistent. simpl. destruct ss; simpl; split;
    congruence.
Qed.

Lemma session_consistent_step (s : AuthSlice.State) (a : Action) :
  session_consistent s -> session_consistent (AuthSlice.reducer s a).
Proof.
  intros Hs. destruct a as [| | | | | | A P op | A P op payload | A P op m];
    simpl; try exact Hs.
  - destruct op; exact Hs.
  - destruct op; simpl; try exact Hs;
      apply session_consistent_after_identity.
  - destruct op; exact Hs.
Qed.

(** C10. In every state the session store reaches, whatever actions were
    applied and however its operations completed, [isAuthenticated] is true
    exactly when a raw session is stored.  A fulfilled register, login or
    session check establishes this from any state, and a fulfilled logout
    stores no session and no flag.  In particular a register that the
    gateway answers with a user and no session is fulfilled with that
    payload, and leaves the identity set while [isAuthenticated] is false. *)
Theorem isAuthenticated_tracks_session :
  (forall actions : list Action,
      session_consistent
        (reduce_all AuthSlice.reducer actions AuthSlice.initialState)) /\
  (forall (s : AuthSlice.State) (payload : AuthPayload),
      session_consistent (AuthSlice.reducer s (fulfilled registerUser payload)) /\
      session_consistent (AuthSlice.reducer s (fulfilled loginUser payload)) /\
      session_consistent (AuthSlice.reducer s (fulfilled checkSession payload)) /\
      session_consistent (AuthSlice.reducer s (fulfilled logoutUser tt))) /\
  (forall (s : AuthSlice.State) (u : User),
      AuthSlice.user
        (AuthSlice.reducer s
           (fulfilled registerUser
              {| payload_user := Some u; payload_session := None |})) = Some u /\
      AuthSlice.session
        (AuthSlice.reducer s
           (fulfilled registerUser
              {| payload_user := Some u; payload_session := None |})) = None /\
      AuthSlice.isAuthenticated
        (AuthSlice.reducer s
           (fulfilled registerUser
              {| payload_user := Some u; payload_session := None |})) = false) /\
  (forall (gw : Gateway) (arg : Credentials) (env : ThunkEnv),
      outcome gw registerUser arg env =
      (match gw _ (auth_signUp (email arg) (password arg)) with
       | Success data =>
           fulfilled registerUser
             {| payload_user := data_user data;
                payload_session := data_session data |}
       | Failure e => rejected registerUser (message e)
       end, [call (auth_signUp (email arg) (password arg))])).
Proof.
  split_and!.
  - intros actions. apply reduce_all_preserves.
    + apply session_consistent_step.
    + unfold session_consistent. simpl. split; congruence.
  - intros s payload. split_and!; simpl;
      apply session_consistent_after_identity.
  - intros s u. repeat split.
  - intros gw arg env. unfold outcome. simpl.
    destruct (gw AuthData (auth_signUp (email arg) (password arg))); reflexivity.
Qed.

(** ** The post cache: the total count *)

(** C4, as the claim states it, fails: the delete thunk is fulfilled for
    any id the gateway accepts, and its reducer subtracts 1 with no lower
    bound, so deleting before any list fetch leaves a total of -1. *)
Lemma deleteBlog_drives_total_below_zero :
  outcome gateway_up deleteBlog "b-1" anonymous =
    (fulfilled deleteBlog "b-1", [call (blogs_delete "b-1")]) /\
  BlogSlice.total
    (BlogSlice.pagination
       (reduce_all BlogSlice.reducer delete_before_any_list
          BlogSlice.initialState)) = -1 /\
  ~ 0 <= BlogSlice.total
           (BlogSlice.pagination
              (reduce_all BlogSlice.reducer delete_before_any_list
                 BlogSlice.initialState)).
Proof.
  split_and!; [reflexivity | reflexivity |].
  vm_compute. intros H. apply H. reflexivity.
Qed.

(** One action moves the total no lower than the count of deletes allows. *)
Lemma total_step (s : BlogSlice.State) (a : Action) (d : Z) :
  carries_row_count a ->
  - d <= BlogSlice.total (BlogSlice.pagination s) ->
  - deletes_since_list d a <=
    BlogSlice.total (BlogSlice.pagination (BlogSlice.reducer s a)).
Proof.
  intros Hrow Hs.
  destruct a as [| | | | | | A P op | A P op payload | A P op m]; simpl;
    try exact Hs.
  - destruct op; exact Hs.
  - destruct op;
      cbv beta iota zeta delta [BlogSlice.on_fulfilled deletes_since_list];
      simpl in Hrow; case_ifs; simpl; lia.
  - destruct op; exact Hs.
Qed.

Lemma total_trace (actions : list Action) (s : BlogSlice.State) (d : Z) :
  Forall carries_row_count actions ->
  - d <= BlogSlice.total (BlogSlice.pagination s) ->
  - fold_left deletes_since_list actions d <=
    BlogSlice.total
      (BlogSlice.pagination (reduce_all BlogSlice.reducer actions s)).
Proof.
  revert s d. induction actions as [| a actions IH]; intros s d Hall Hs; simpl.
  - exact Hs.
  - inversion Hall as [| a' l' Ha Hrest]; subst.
    apply IH; [exact Hrest |]. apply total_step; assumption.
Qed.

(** C4, amended. With row counts from the gateway that are not negative,
    the total of every reachable post cache state is at least [-d], where
    [d] counts the successful deletes applied since the last successful
    list fetch (or since the start); so the total is not negative as long
    as no delete has succeeded since the last list fetch.  Each successful
    delete subtracts exactly 1 with no lower bound. *)
Theorem total_bounded_by_deletes_since_list :
  forall actions : list Action,
    Forall carries_row_count actions ->
    - fold_left deletes_since_list actions 0 <=
      BlogSlice.total
        (BlogSlice.pagination
           (reduce_all BlogSlice.reducer actions BlogSlice.initialState)) /\
    forall (s : BlogSlice.State) (id : string),
      BlogSlice.total
        (BlogSlice.pagination (BlogSlice.reducer s (fulfilled deleteBlog id))) =
      BlogSlice.total (BlogSlice.pagination s) - 1.
Proof.
  intros actions Hall. split.
  - apply total_trace; [exact Hall | simpl; lia].
  - intros s id. rewrite deleteBlog_fulfilled_eq. reflexivity.
Qed.

Lemma total_bounded_by_deletes_since_list_witness :
  Forall carries_row_count list_create_delete_twice /\
  (- fold_left deletes_since_list list_create_delete_twice 0 <=
   BlogSlice.total
     (BlogSlice.pagination
        (reduce_all BlogSlice.reducer list_create_delete_twice
           BlogSlice.initialState)) /\
   forall (s : BlogSlice.State) (id : string),
     BlogSlice.total
       (BlogSlice.pagination (BlogSlice.reducer s (fulfilled deleteBlog id))) =
     BlogSlice.total (BlogSlice.pagination s) - 1).
Proof.
  assert (Hall : Forall carries_row_count list_create_delete_twice).
  { unfold list_create_delete_twice.
    repeat first [apply Forall_nil_2 | apply Forall_cons_2]; simpl; try exact I.
    lia. }
  split; [exact Hall |].
  exact (total_bounded_by_deletes_since_list list_create_delete_twice Hall).
Defined.

(** ** The write protocol: the authentication check *)

(** C1, as the claim states it, fails for Update and Delete: with no user
    in the session store they still reach the gateway, and are fulfilled
    when the gateway accepts the request. *)
Lemma update_delete_reach_gateway_without_identity :
  AuthSlice.user (getState_auth anonymous) = None /\
  AuthSlice.isAuthenticated (getState_auth anonymous) = false /\
  outcome gateway_up updateBlog sample_update anonymous =
    (fulfilled updateBlog (sample_blog "b-1"),
     [call (blogs_update "b-1" "A" "B" None "2024-05-03T09:30:00.000Z")]) /\
  outcome gateway_up deleteBlog "b-1" anonymous =
    (fulfilled deleteBlog "b-1", [call (blogs_delete "b-1")]) /\
  outcome gateway_up updateComment sample_comment_update anonymous =
    (fulfilled updateComment (sample_comment "c-1"),
     [call (comments_update "c-1" "nice" None "2024-05-03T09:30:00.000Z")]) /\
  outcome gateway_up deleteComment "c-1" anonymous =
    (fulfilled deleteComment "c-1", [call (comments_delete "c-1")]).
Proof.
  repeat split.
Qed.

(** C1, amended. While the session store holds no user, a Create on posts
    or comments never calls the gateway and is rejected with the message
    'User not authenticated'.  Update and Delete on posts or comments make
    no such check: in that same situation they issue their one gateway
    request. *)
Theorem create_fails_closed_without_identity :
  forall (gw : Gateway) (env : ThunkEnv),
    AuthSlice.user (getState_auth env) = None ->
    (forall arg : CreateBlogArg,
        payloadCreator createBlog arg env =
          Ret (Rejected "User not authenticated") /\
        outcome gw createBlog arg env =
          (rejected createBlog "User not authenticated", [])) /\
    (forall arg : CreateCommentArg,
        payloadCreator createComment arg env =
          Ret (Rejected "User not authenticated") /\
        outcome gw createComment arg env =
          (rejected createComment "User not authenticated", [])) /\
    (forall arg : UpdateBlogArg,
        snd (outcome gw updateBlog arg env) =
          [call (blogs_update (ub_id arg) (ub_title arg) (ub_content arg)
                   (ub_imageUrl arg) (now_iso env))]) /\
    (forall id : string,
        snd (outcome gw deleteBlog id env) = [call (blogs_delete id)]) /\
    (forall arg : UpdateCommentArg,
        snd (outcome gw updateComment arg env) =
          [call (comments_update (uc_id arg) (uc_content arg) (uc_fileUrl arg)
                   (now_iso env))]) /\
    (forall id : string,
        snd (outcome gw deleteComment id env) = [call (comments_delete id)]).
Proof.
  intros gw env Hnone.
  assert (Hid : not_userId (userId_of env) = true).
  { unfold userId_of. rewrite Hnone. reflexivity. }
  split_and!; intros arg.
  - unfold outcome. simpl. rewrite Hid. split; reflexivity.
  - unfold outcome. simpl. rewrite Hid. split; reflexivity.
  - unfold outcome, payloadCreator. rewrite run_one_request. reflexivity.
  - unfold outcome, payloadCreator. rewrite run_one_request. reflexivity.
  - unfold outcome, payloadCreator. rewrite run_one_request. reflexivity.
  - unfold outcome, payloadCreator. rewrite run_one_request. reflexivity.
Qed.

Lemma create_fails_closed_without_identity_witness :
  AuthSlice.user (getState_auth anonymous) = None /\
  outcome gateway_up createBlog
    {| cb_title := "A"; cb_content := "B"; cb_imageUrl := None |} anonymous =
    (rejected createBlog "User not authenticated", []).
Proof.
  split; [reflexivity |].
  apply (create_fails_closed_without_identity gateway_up anonymous eq_refl).
Defined.

(** ** The write protocol: gateway failures *)

(** C5. When the gateway answers the request of a write operation with a
    failure, the operation is rejected with the gateway's message, one
    request was made, and applying the rejection to any state of the caches
    stores that very message as the error of the owning cache, clears its
    loading flag, and leaves the post window, the focused post, the
    pagination (with the total) and the comment list as they were; the
    pending action that started the operation left them alone as well. *)
Theorem gateway_failure_surfaces_verbatim :
  forall (A P : Type) (op : Op A P) (arg : A) (env : ThunkEnv) (gw : Gateway)
         (e : JsError),
    write_thunk op = true ->
    reports_failure gw (payloadCreator op arg env) e ->
    fst (outcome gw op arg env) = rejected op (message e) /\
    length (snd (outcome gw op arg env)) = 1%nat /\
    forall (sb : BlogSlice.State) (sc : CommentSlice.State),
      BlogSlice.blogs (BlogSlice.reducer sb (pending op)) = BlogSlice.blogs sb /\
      BlogSlice.currentBlog (BlogSlice.reducer sb (pending op)) =
        BlogSlice.currentBlog sb /\
      BlogSlice.pagination (BlogSlice.reducer sb (pending op)) =
        BlogSlice.pagination sb /\
      CommentSlice.comments (CommentSlice.reducer sc (pending op)) =
        CommentSlice.comments sc /\
      BlogSlice.blogs (BlogSlice.reducer sb (rejected op (message e))) =
        BlogSlice.blogs sb /\
      BlogSlice.currentBlog (BlogSlice.reducer sb (rejected op (message e))) =
        BlogSlice.currentBlog sb /\
      BlogSlice.pagination (BlogSlice.reducer sb (rejected op (message e))) =
        BlogSlice.pagination sb /\
      CommentSlice.comments (CommentSlice.reducer sc (rejected op (message e))) =
        CommentSlice.comments sc /\
      match owner op with
      | Blogs =>
          BlogSlice.error (BlogSlice.reducer sb (rejected op (message e))) =
            Some (message e) /\
          BlogSlice.loading (BlogSlice.reducer sb (rejected op (message e))) =
            false /\
          CommentSlice.reducer sc (rejected op (message e)) = sc
      | Comments =>
          CommentSlice.error (CommentSlice.reducer sc (rejected op (message e))) =
            Some (message e) /\
          CommentSlice.loading (CommentSlice.reducer sc (rejected op (message e))) =
            false /\
          BlogSlice.reducer sb (rejected op (message e)) = sb
      | Auth => False
      end.
Proof.
  intros A P op arg env gw e Hwrite Hfail.
  destruct op; try discriminate Hwrite; clear Hwrite; unfold outcome;
    cbn in Hfail |- *;
    try (destruct (not_userId (userId_of env)); cbn in Hfail |- *;
         [contradiction |]);
    rewrite Hfail; cbn; split_and!; intros; split_and?; reflexivity.
Qed.

Lemma gateway_failure_surfaces_verbatim_witness :
  write_thunk createBlog = true /\
  reports_failure (gateway_down {| message := "duplicate key value" |})
    (payloadCreator createBlog
       {| cb_title := "A"; cb_content := "B"; cb_imageUrl := None |} signed_in)
    {| message := "duplicate key value" |} /\
  fst (outcome (gateway_down {| message := "duplicate key value" |}) createBlog
         {| cb_title := "A"; cb_content := "B"; cb_imageUrl := None |} signed_in) =
    rejected createBlog "duplicate key value".
Proof.
  split_and!; [reflexivity | reflexivity |].
  apply (gateway_failure_surfaces_verbatim _ _ createBlog
           {| cb_title := "A"; cb_content := "B"; cb_imageUrl := None |}
           signed_in (gateway_down {| message := "duplicate key value" |})
           {| message := "duplicate key value" |} eq_refl eq_refl).
Defined.

(** ** The list fetch *)

(** C7. A list fetch always issues the count request and then the range
    request.  Its result is decided by the range response alone: a failed
    range request rejects the thunk with the gateway's message, anything
    else fulfils it with the fetched rows and with the count, where a failed
    count request counts as 0.  The rejection leaves the window, the focused
    post and the pagination untouched, clears loading and sets the error. *)
Theorem fetchBlogs_only_list_failure_is_fatal :
  forall (gw : Gateway) (arg : FetchBlogsArg) (env : ThunkEnv),
    outcome gw fetchBlogs arg env =
      (match gw _ (blogs_range ((page arg - 1) * limit arg)
                               ((page arg - 1) * limit arg + limit arg - 1)) with
       | Success data =>
           fulfilled fetchBlogs
             {| payload_blogs := data_or_empty data;
                payload_total := count_or_zero (count_of (gw _ blogs_count)) |}
       | Failure e => rejected fetchBlogs (message e)
       end,
       [call blogs_count;
        call (blogs_range ((page arg - 1) * limit arg)
                          ((page arg - 1) * limit arg + limit arg - 1))]) /\
    (forall e : JsError, count_or_zero (count_of (Failure e)) = 0) /\
    ((exists m, fst (outcome gw fetchBlogs arg env) = rejected fetchBlogs m) <->
     (exists e, gw _ (blogs_range ((page arg - 1) * limit arg)
                                  ((page arg - 1) * limit arg + limit arg - 1)) =
                Failure e)) /\
    (forall (s : BlogSlice.State) (m : string),
        BlogSlice.blogs (BlogSlice.reducer s (rejected fetchBlogs m)) =
          BlogSlice.blogs s /\
        BlogSlice.currentBlog (BlogSlice.reducer s (rejected fetchBlogs m)) =
          BlogSlice.currentBlog s /\
        BlogSlice.pagination (BlogSlice.reducer s (rejected fetchBlogs m)) =
          BlogSlice.pagination s /\
        BlogSlice.loading (BlogSlice.reducer s (rejected fetchBlogs m)) = false /\
        BlogSlice.error (BlogSlice.reducer s (rejected fetchBlogs m)) = Some m).
Proof.
  intros gw arg env.
  assert (Hout : outcome gw fetchBlogs arg env =
      (match gw _ (blogs_range ((page arg - 1) * limit arg)
                               ((page arg - 1) * limit arg + limit arg - 1)) with
       | Success data =>
           fulfilled fetchBlogs
             {| payload_blogs := data_or_empty data;
                payload_total := count_or_zero (count_of (gw _ blogs_count)) |}
       | Failure e => rejected fetchBlogs (message e)
       end,
       [call blogs_count;
        call (blogs_range ((page arg - 1) * limit arg)
                          ((page arg - 1) * limit arg + limit arg - 1))])).
  { unfold outcome. simpl.
    destruct (gw _ (blogs_range _ _)); reflexivity. }
  split_and!.
  - exact Hout.
  - reflexivity.
  - rewrite Hout. simpl.
    destruct (gw _ (blogs_range _ _)) as [data | e].
    + split; intros [x Hx]; discriminate Hx.
    + split; intros _; eauto.
  - intros s m. repeat split.
Qed.

(** * Further properties of the slices *)

(** ** Lists edited by id *)

Section EditById.

Context {X : Type}.
Variable test : X -> bool.

(** The index found and then assigned to is the first match, in place. *)
Lemma assign_at_findIndex (x : X) (l : list X) :
  (if negb (findIndex test l =? -1)
   then <[Z.to_nat (findIndex test l) := x]> l
   else l) = replace_first test x l.
Proof.
  induction l as [| y l IH]; simpl; [reflexivity |].
  destruct (test y); [reflexivity |].
  pose proof (findIndex_bounds test l) as Hb.
  destruct (Z.eqb_spec (findIndex test l) (-1)) as [He | Hne].
  - simpl. rewrite He in IH. simpl in IH. congruence.
  - simpl in IH.
    destruct (Z.eqb_spec (findIndex test l + 1) (-1)) as [Habs | _]; [lia |].
    simpl.
    replace (Z.to_nat (findIndex test l + 1))
      with (S (Z.to_nat (findIndex test l))) by lia.
    simpl. congruence.
Qed.

Lemma replace_first_length (x : X) (l : list X) :
  length (replace_first test x l) = length l.
Proof.
  induction l as [| y l IH]; simpl; [reflexivity |].
  destruct (test y); simpl; congruence.
Qed.

Lemma replace_first_absent (x : X) (l : list X) :
  Forall (fun y => test y = false) l -> replace_first test x l = l.
Proof.
  induction 1 as [| y l Hy _ IH]; simpl; [reflexivity |].
  rewrite Hy, IH. reflexivity.
Qed.

Lemma replace_first_split (x y : X) (l1 l2 : list X) :
  Forall (fun z => test z = false) l1 -> test y = true ->
  replace_first test x (l1 ++ y :: l2)%list = (l1 ++ x :: l2)%list.
Proof.
  intros Hpre Hy. induction Hpre as [| z l Hz _ IH]; simpl.
  - rewrite Hy. reflexivity.
  - rewrite Hz, IH. reflexivity.
Qed.

Lemma replace_first_idempotent (x : X) (l : list X) :
  test x = true ->
  replace_first test x (replace_first test x l) = replace_first test x l.
Proof.
  intros Hx. induction l as [| y l IH]; simpl; [reflexivity |].
  destruct (test y) eqn:Hy; simpl.
  - rewrite Hx. reflexivity.
  - rewrite Hy, IH. reflexivity.
Qed.

Lemma replace_first_keys {K : Type} (key : X -> K) (x : X) (l : list X) :
  (forall y, test y = true -> key y = key x) ->
  map key (replace_first test x l) = map key l.
Proof.
  intros Hkey. induction l as [| y l IH]; simpl; [reflexivity |].
  destruct (test y) eqn:Hy; simpl.
  - rewrite (Hkey y Hy). reflexivity.
  - rewrite IH. reflexivity.
Qed.

End EditById.

Section RemoveById.

Context {X : Type}.
Variable key : X -> string.

Lemma remove_absent (id : string) (l : list X) :
  id ∉ map key l -> filter (fun x => key x <> id) l = l.
Proof.
  induction l as [| x l IH]; intros Habs; [reflexivity |].
  simpl in Habs. apply not_elem_of_cons in Habs as [Hne Hrest].
  rewrite filter_cons_True by congruence.
  rewrite IH by exact Hrest. reflexivity.
Qed.

Lemma remove_unique (id : string) (l : list X) :
  NoDup (map key l) -> id ∈ map key l ->
  S (length (filter (fun x => key x <> id) l)) = length l.
Proof.
  induction l as [| x l IH]; simpl; intros Hnd Hin.
  - inversion Hin.
  - apply NoDup_cons in Hnd as [Hfresh Hnd].
    destruct (decide (key x = id)) as [Heq | Hne].
    + rewrite filter_cons_False by (intros H; apply H, Heq).
      rewrite remove_absent by (rewrite <- Heq; exact Hfresh).
      reflexivity.
    + rewrite filter_cons_True by exact Hne. simpl.
      apply elem_of_cons in Hin as [Heq | Hin]; [congruence |].
      rewrite IH by assumption. reflexivity.
Qed.

End RemoveById.

(** The state a fulfilled update leaves, field by field. *)
Lemma updateBlog_fulfilled_eq (s : BlogSlice.State) (payload : Blog) :
  BlogSlice.reducer s (fulfilled updateBlog payload) =
  {| BlogSlice.blogs :=
       replace_first (fun blog => bool_decide (blog_id blog = blog_id payload))
         payload (BlogSlice.blogs s);
     BlogSlice.currentBlog :=
       if BlogSlice.currentBlog_is (blog_id payload) s
       then Some payload else BlogSlice.currentBlog s;
     BlogSlice.pagination := BlogSlice.pagination s;
     BlogSlice.loading := false;
     BlogSlice.error := BlogSlice.error s |}.
Proof.
  rewrite <- assign_at_findIndex.
  cbv beta iota zeta delta [BlogSlice.reducer BlogSlice.on_fulfilled].
  change (BlogSlice.blogs (BlogSlice.set_loading false s))
    with (BlogSlice.blogs s).
  destruct (negb (findIndex _ (BlogSlice.blogs s) =? -1));
    match goal with
    | |- context [BlogSlice.currentBlog_is ?i ?t] =>
        change (BlogSlice.currentBlog_is i t)
          with (BlogSlice.currentBlog_is i s)
    end;
    destruct (BlogSlice.currentBlog_is (blog_id payload) s); reflexivity.
Qed.

Lemma updateComment_fulfilled_eq (s : CommentSlice.State) (payload : Comment) :
  CommentSlice.reducer s (fulfilled updateComment payload) =
  {| CommentSlice.comments :=
       replace_first
         (fun comment => bool_decide (comment_id comment = comment_id payload))
         payload (CommentSlice.comments s);
     CommentSlice.loading := false;
     CommentSlice.error := CommentSlice.error s |}.
Proof.
  rewrite <- assign_at_findIndex.
  cbv beta iota zeta delta [CommentSlice.reducer CommentSlice.on_fulfilled].
  change (CommentSlice.comments (CommentSlice.set_loading false s))
    with (CommentSlice.comments s).
  destruct (negb (findIndex _ (CommentSlice.comments s) =? -1)); reflexivity.
Qed.

(** ** The post cache: update and delete by id *)

(** X1. A fulfilled post update edits the window in place: the first post
    with the payload's id becomes the payload and nothing else moves, so the
    sequence of ids, the length and the pagination are unchanged, and
    applying the same update again changes nothing. *)
Theorem updateBlog_fulfilled_in_place :
  forall (s : BlogSlice.State) (updated : Blog),
    BlogSlice.blogs (BlogSlice.reducer s (fulfilled updateBlog updated)) =
      replace_first (fun blog => bool_decide (blog_id blog = blog_id updated))
        updated (BlogSlice.blogs s) /\
    map blog_id
      (BlogSlice.blogs (BlogSlice.reducer s (fulfilled updateBlog updated))) =
      map blog_id (BlogSlice.blogs s) /\
    length (BlogSlice.blogs (BlogSlice.reducer s (fulfilled updateBlog updated))) =
      length (BlogSlice.blogs s) /\
    BlogSlice.pagination (BlogSlice.reducer s (fulfilled updateBlog updated)) =
      BlogSlice.pagination s /\
    BlogSlice.reducer (BlogSlice.reducer s (fulfilled updateBlog updated))
      (fulfilled updateBlog updated) =
      BlogSlice.reducer s (fulfilled updateBlog updated).
Proof.
  intros s updated. rewrite !updateBlog_fulfilled_eq. simpl. split_and!.
  - reflexivity.
  - apply replace_first_keys. intros y Hy.
    apply bool_decide_eq_true in Hy. exact Hy.
  - apply replace_first_length.
  - reflexivity.
  - rewrite replace_first_idempotent by (apply bool_decide_eq_true; reflexivity).
    f_equal.
    unfold BlogSlice.currentBlog_is. simpl.
    destruct (BlogSlice.currentBlog s) as [blog |]; [| reflexivity].
    destruct (bool_decide (blog_id blog = blog_id updated)) eqn:Hb.
    + rewrite bool_decide_eq_true_2 by reflexivity. reflexivity.
    + rewrite Hb. reflexivity.
Qed.

(** X2. When the window holds a post with the updated id, a fulfilled update
    replaces the first such post and leaves every post before and after it
    where it was. *)
Theorem updateBlog_fulfilled_replaces_first_match :
  forall (s : BlogSlice.State) (updated old : Blog) (l1 l2 : list Blog),
    BlogSlice.blogs s = (l1 ++ old :: l2)%list ->
    blog_id old = blog_id updated ->
    blog_id updated ∉ map blog_id l1 ->
    BlogSlice.blogs (BlogSlice.reducer s (fulfilled updateBlog updated)) =
      (l1 ++ updated :: l2)%list.
Proof.
  intros s updated old l1 l2 Hwin Hid Hfresh.
  rewrite updateBlog_fulfilled_eq. simpl. rewrite Hwin.
  apply replace_first_split.
  - apply Forall_forall. intros b Hb. apply bool_decide_eq_false.
    intros Heq. apply Hfresh. apply list_elem_of_fmap. exists b. auto.
  - apply bool_decide_eq_true. exact Hid.
Qed.

Lemma updateBlog_fulfilled_replaces_first_match_witness :
  BlogSlice.blogs focus_off_window =
    ([sample_blog "b-1"] ++ sample_blog "b-2" :: [])%list /\
  blog_id (sample_blog "b-2") = blog_id (edited_blog "b-2") /\
  (blog_id (edited_blog "b-2") ∉ map blog_id [sample_blog "b-1"]) /\
  BlogSlice.blogs
    (BlogSlice.reducer focus_off_window (fulfilled updateBlog (edited_blog "b-2")))
  = ([sample_blog "b-1"] ++ edited_blog "b-2" :: [])%list.
Proof.
  assert (Hfresh : blog_id (edited_blog "b-2") ∉ map blog_id [sample_blog "b-1"]).
  { simpl. intros H. apply elem_of_cons in H as [H | H]; [discriminate |].
    inversion H. }
  split_and!; [reflexivity | reflexivity | exact Hfresh |].
  exact (updateBlog_fulfilled_replaces_first_match focus_off_window
           (edited_blog "b-2") (sample_blog "b-2") [sample_blog "b-1"] []
           eq_refl eq_refl Hfresh).
Defined.

(** X3. When the ids of the window are pairwise distinct and the deleted id
    is among them, a fulfilled delete shortens the window by exactly one
    post, in step with the total it lowers by one. *)
Theorem deleteBlog_fulfilled_in_step :
  forall (s : BlogSlice.State) (id : string),
    NoDup (map blog_id (BlogSlice.blogs s)) ->
    id ∈ map blog_id (BlogSlice.blogs s) ->
    S (length (BlogSlice.blogs (BlogSlice.reducer s (fulfilled deleteBlog id)))) =
      length (BlogSlice.blogs s) /\
    BlogSlice.total
      (BlogSlice.pagination (BlogSlice.reducer s (fulfilled deleteBlog id))) + 1 =
      BlogSlice.total (BlogSlice.pagination s).
Proof.
  intros s id Hnd Hin. rewrite deleteBlog_fulfilled_eq. simpl. split.
  - apply remove_unique; assumption.
  - lia.
Qed.

Lemma deleteBlog_fulfilled_in_step_witness :
  NoDup (map blog_id (BlogSlice.blogs focus_off_window)) /\
  ("b-2" ∈ map blog_id (BlogSlice.blogs focus_off_window)) /\
  (S (length (BlogSlice.blogs
                (BlogSlice.reducer focus_off_window (fulfilled deleteBlog "b-2")))) =
     length (BlogSlice.blogs focus_off_window) /\
   BlogSlice.total
     (BlogSlice.pagination
        (BlogSlice.reducer focus_off_window (fulfilled deleteBlog "b-2"))) + 1 =
     BlogSlice.total (BlogSlice.pagination focus_off_window)).
Proof.
  assert (Hnd : NoDup (map blog_id (BlogSlice.blogs focus_off_window))).
  { simpl. apply (bool_decide_unpack _). vm_compute. exact I. }
  assert (Hin : "b-2" ∈ map blog_id (BlogSlice.blogs focus_off_window)).
  { simpl. apply (bool_decide_unpack _). vm_compute. exact I. }
  split_and!; [exact Hnd | exact Hin | |];
    apply (deleteBlog_fulfilled_in_step focus_off_window "b-2" Hnd Hin).
Defined.

(** X4. Creating a post and then deleting it again restores the window and
    the pagination, whenever the new id was not already in the window. *)
Theorem createBlog_then_deleteBlog_restores :
  forall (s : BlogSlice.State) (created : Blog),
    blog_id created ∉ map blog_id (BlogSlice.blogs s) ->
    BlogSlice.blogs
      (reduce_all BlogSlice.reducer
         [fulfilled createBlog created; fulfilled deleteBlog (blog_id created)] s) =
      BlogSlice.blogs s /\
    BlogSlice.pagination
      (reduce_all BlogSlice.reducer
         [fulfilled createBlog created; fulfilled deleteBlog (blog_id created)] s) =
      BlogSlice.pagination s.
Proof.
  intros s created Hfresh. unfold reduce_all. cbn [fold_left].
  rewrite deleteBlog_fulfilled_eq. simpl. split.
  - rewrite filter_cons_False by (intros H; apply H; reflexivity).
    apply remove_absent. exact Hfresh.
  - destruct (BlogSlice.pagination s) as [p l t]. simpl. f_equal. lia.
Qed.

Lemma createBlog_then_deleteBlog_restores_witness :
  (blog_id (sample_blog "b-new") ∉ map blog_id (BlogSlice.blogs focus_off_window))
  /\
  BlogSlice.blogs
    (reduce_all BlogSlice.reducer
       [fulfilled createBlog (sample_blog "b-new");
        fulfilled deleteBlog (blog_id (sample_blog "b-new"))] focus_off_window) =
    BlogSlice.blogs focus_off_window.
Proof.
  assert (Hfresh : blog_id (sample_blog "b-new") ∉
                   map blog_id (BlogSlice.blogs focus_off_window)).
  { simpl. apply (bool_decide_unpack _). vm_compute. exact I. }
  split; [exact Hfresh |].
  apply (createBlog_then_deleteBlog_restores focus_off_window
           (sample_blog "b-new") Hfresh).
Defined.

(** ** The comment cache: create, update and delete *)

(** X5. A fulfilled comment update edits the list in place: the first
    comment with the payload's id becomes the payload, the sequence of ids
    and the length are unchanged (so an id that is not in the list changes
    nothing), loading is cleared, the error is kept, and applying the same
    update again changes nothing. *)
Theorem updateComment_fulfilled_in_place :
  forall (s : CommentSlice.State) (updated : Comment),
    CommentSlice.comments
      (CommentSlice.reducer s (fulfilled updateComment updated)) =
      replace_first
        (fun comment => bool_decide (comment_id comment = comment_id updated))
        updated (CommentSlice.comments s) /\
    map comment_id
      (CommentSlice.comments
         (CommentSlice.reducer s (fulfilled updateComment updated))) =
      map comment_id (CommentSlice.comments s) /\
    length (CommentSlice.comments
              (CommentSlice.reducer s (fulfilled updateComment updated))) =
      length (CommentSlice.comments s) /\
    Forall (fun c => c = updated \/ c ∈ CommentSlice.comments s)
      (CommentSlice.comments
         (CommentSlice.reducer s (fulfilled updateComment updated))) /\
    CommentSlice.loading
      (CommentSlice.reducer s (fulfilled updateComment updated)) = false /\
    CommentSlice.error
      (CommentSlice.reducer s (fulfilled updateComment updated)) =
      CommentSlice.error s /\
    CommentSlice.reducer
      (CommentSlice.reducer s (fulfilled updateComment updated))
      (fulfilled updateComment updated) =
      CommentSlice.reducer s (fulfilled updateComment updated).
Proof.
  intros s updated. rewrite !updateComment_fulfilled_eq. simpl. split_and!;
    try reflexivity.
  - apply replace_first_keys. intros y Hy.
    apply bool_decide_eq_true in Hy. exact Hy.
  - apply replace_first_length.
  - apply Forall_forall. intros c. generalize (CommentSlice.comments s) as l.
    induction l as [| y l IH]; simpl; intros Hc; [inversion Hc |].
    destruct (bool_decide (comment_id y = comment_id updated)).
    + apply elem_of_cons in Hc as [-> | Hc]; [left; reflexivity |].
      right. apply elem_of_cons. right. exact Hc.
    + apply elem_of_cons in Hc as [-> | Hc].
      * right. apply elem_of_cons. left. reflexivity.
      * destruct (IH Hc) as [-> | Hin]; [left; reflexivity |].
        right. apply elem_of_cons. right. exact Hin.
  - rewrite replace_first_idempotent by (apply bool_decide_eq_true; reflexivity).
    reflexivity.
Qed.

(** X6. A fulfilled comment delete keeps, in order, exactly the comments
    whose id differs from the deleted one, never lengthens the list, clears
    loading and keeps the error; deleting the same id again changes
    nothing. *)
Theorem deleteComment_fulfilled_removes_by_id :
  forall (s : CommentSlice.State) (id : string),
    CommentSlice.comments (CommentSlice.reducer s (fulfilled deleteComment id)) =
      filter (fun comment => comment_id comment <> id) (CommentSlice.comments s) /\
    (forall c : Comment,
        c ∈ CommentSlice.comments
              (CommentSlice.reducer s (fulfilled deleteComment id))
        <-> (c ∈ CommentSlice.comments s /\ comment_id c <> id)) /\
    (id ∉ map comment_id
            (CommentSlice.comments
               (CommentSlice.reducer s (fulfilled deleteComment id)))) /\
    (length (CommentSlice.comments
               (CommentSlice.reducer s (fulfilled deleteComment id))) <=
     length (CommentSlice.comments s))%nat /\
    CommentSlice.loading (CommentSlice.reducer s (fulfilled deleteComment id)) =
      false /\
    CommentSlice.error (CommentSlice.reducer s (fulfilled deleteComment id)) =
      CommentSlice.error s /\
    CommentSlice.reducer (CommentSlice.reducer s (fulfilled deleteComment id))
      (fulfilled deleteComment id) =
      CommentSlice.reducer s (fulfilled deleteComment id).
Proof.
  intros s id. simpl. split_and!; try reflexivity.
  - intros c. rewrite list_elem_of_filter. tauto.
  - intros H. apply list_elem_of_fmap in H as (c & Hc & Hin).
    apply list_elem_of_filter in Hin as [Hne _]. congruence.
  - apply length_filter.
  - unfold CommentSlice.set_comments, CommentSlice.set_loading. simpl.
    f_equal. apply remove_absent.
    intros H. apply list_elem_of_fmap in H as (c & Hc & Hin).
    apply list_elem_of_filter in Hin as [Hne _]. congruence.
Qed.

(** X7. Creating a comment and then deleting it again restores the comment
    list, whenever the new id was not already in the list. *)
Theorem createComment_then_deleteComment_restores :
  forall (s : CommentSlice.State) (created : Comment),
    comment_id created ∉ map comment_id (CommentSlice.comments s) ->
    CommentSlice.comments
      (CommentSlice.reducer s (fulfilled createComment created)) =
      created :: CommentSlice.comments s /\
    CommentSlice.comments
      (reduce_all CommentSlice.reducer
         [fulfilled createComment created;
          fulfilled deleteComment (comment_id created)] s) =
      CommentSlice.comments s.
Proof.
  intros s created Hfresh. unfold reduce_all. simpl. split; [reflexivity |].
  rewrite filter_cons_False by (intros H; apply H; reflexivity).
  apply remove_absent. exact Hfresh.
Qed.

Lemma createComment_then_deleteComment_restores_witness :
  (comment_id (sample_comment "c-new") ∉
   map comment_id (CommentSlice.comments comments_loading)) /\
  CommentSlice.comments
    (reduce_all CommentSlice.reducer
       [fulfilled createComment (sample_comment "c-new");
        fulfilled deleteComment (comment_id (sample_comment "c-new"))]
       comments_loading) =
    CommentSlice.comments comments_loading.
Proof.
  assert (Hfresh : comment_id (sample_comment "c-new") ∉
                   map comment_id (CommentSlice.comments comments_loading)).
  { simpl. apply (bool_decide_unpack _). vm_compute. exact I. }
  split; [exact Hfresh |].
  apply (createComment_then_deleteComment_restores comments_loading
           (sample_comment "c-new") Hfresh).
Defined.

(** * Thunks dispatched to completion *)

(** ** What the reading thunks settle to *)

Lemma fetchBlogs_outcome (gw : Gateway) (arg : FetchBlogsArg) (env : ThunkEnv) :
  outcome gw fetchBlogs arg env =
  (match gw _ (blogs_range ((page arg - 1) * limit arg)
                           ((page arg - 1) * limit arg + limit arg - 1)) with
   | Success data =>
       fulfilled fetchBlogs
         {| payload_blogs := data_or_empty data;
            payload_total := count_or_zero (count_of (gw _ blogs_count)) |}
   | Failure e => rejected fetchBlogs (message e)
   end,
   [call blogs_count;
    call (blogs_range ((page arg - 1) * limit arg)
                      ((page arg - 1) * limit arg + limit arg - 1))]).
Proof.
  unfold outcome. simpl. destruct (gw _ (blogs_range _ _)); reflexivity.
Qed.

(** Every thunk that awaits one request settles by its response. *)
Lemma outcome_one_request {A P T : Type} (gw : Gateway) (op : Op A P) (arg : A)
    (env : ThunkEnv) (q : Request T) (f : T -> P) :
  payloadCreator op arg env =
    try_catch (let! r := await q in
               let! data := data_or_throw r in
               ret (f data)) catch_reject ->
  outcome gw op arg env =
  (match gw _ q with
   | Success data => fulfilled op (f data)
   | Failure e => rejected op (message e)
   end, [call q]).
Proof.
  intros Hshape. unfold outcome. rewrite Hshape, run_one_request.
  destruct (gw T q); reflexivity.
Qed.

(** ** Reading posts and comments *)

(** X8. A list fetch dispatched to completion replaces the whole window by
    the rows the gateway returned for the range (an empty window when it
    returned none) and overwrites the total with the count, whatever the
    window held before; when the range request fails, window and total stay
    and the gateway's message is the error.  Either way the current page,
    the page size and the focused post are untouched and loading ends
    cleared. *)
Theorem fetchBlogs_dispatch_replaces_window :
  forall (gw : Gateway) (arg : FetchBlogsArg) (env : ThunkEnv)
         (s : BlogSlice.State),
    match gw _ (blogs_range ((page arg - 1) * limit arg)
                            ((page arg - 1) * limit arg + limit arg - 1)) with
    | Success rows =>
        BlogSlice.blogs (dispatch BlogSlice.reducer gw fetchBlogs arg env s) =
          data_or_empty rows /\
        BlogSlice.total
          (BlogSlice.pagination
             (dispatch BlogSlice.reducer gw fetchBlogs arg env s)) =
          count_or_zero (count_of (gw _ blogs_count)) /\
        BlogSlice.error (dispatch BlogSlice.reducer gw fetchBlogs arg env s) =
          None
    | Failure e =>
        BlogSlice.blogs (dispatch BlogSlice.reducer gw fetchBlogs arg env s) =
          BlogSlice.blogs s /\
        BlogSlice.total
          (BlogSlice.pagination
             (dispatch BlogSlice.reducer gw fetchBlogs arg env s)) =
          BlogSlice.total (BlogSlice.pagination s) /\
        BlogSlice.error (dispatch BlogSlice.reducer gw fetchBlogs arg env s) =
          Some (message e)
    end /\
    BlogSlice.page
      (BlogSlice.pagination (dispatch BlogSlice.reducer gw fetchBlogs arg env s)) =
      BlogSlice.page (BlogSlice.pagination s) /\
    BlogSlice.limit
      (BlogSlice.pagination (dispatch BlogSlice.reducer gw fetchBlogs arg env s)) =
      BlogSlice.limit (BlogSlice.pagination s) /\
    BlogSlice.currentBlog (dispatch BlogSlice.reducer gw fetchBlogs arg env s) =
      BlogSlice.currentBlog s /\
    BlogSlice.loading (dispatch BlogSlice.reducer gw fetchBlogs arg env s) =
      false.
Proof.
  intros gw arg env s. unfold dispatch. rewrite fetchBlogs_outcome. simpl fst.
  destruct (gw _ (blogs_range _ _)); split_and!; reflexivity.
Qed.

(** X9. The ranges that list fetches request tile the rows: page 1 starts at
    row 0, every page asks for exactly [limit] consecutive rows, and page
    [p + 1] starts at the row after the last one of page [p]. *)
Theorem fetchBlogs_ranges_tile :
  forall (gw : Gateway) (p l : Z) (env : ThunkEnv),
    snd (outcome gw fetchBlogs {| page := 1; limit := l |} env) =
      [call blogs_count; call (blogs_range 0 (l - 1))] /\
    snd (outcome gw fetchBlogs {| page := p; limit := l |} env) =
      [call blogs_count; call (blogs_range ((p - 1) * l) (p * l - 1))] /\
    snd (outcome gw fetchBlogs {| page := p + 1; limit := l |} env) =
      [call blogs_count; call (blogs_range (p * l) (p * l + l - 1))].
Proof.
  intros gw p l env. rewrite !fetchBlogs_outcome. simpl.
  split_and!; repeat f_equal; lia.
Qed.

(** X10. Fetching one post dispatched to completion puts the returned post in
    the focused slot, or leaves the slot as it was and reports the gateway's
    message when the request fails; the window and the pagination are never
    touched and loading ends cleared. *)
Theorem fetchBlogById_dispatch_fills_focus :
  forall (gw : Gateway) (id : string) (env : ThunkEnv) (s : BlogSlice.State),
    snd (outcome gw fetchBlogById id env) = [call (blogs_single id)] /\
    BlogSlice.currentBlog (dispatch BlogSlice.reducer gw fetchBlogById id env s) =
      match gw _ (blogs_single id) with
      | Success blog => Some blog
      | Failure _ => BlogSlice.currentBlog s
      end /\
    BlogSlice.error (dispatch BlogSlice.reducer gw fetchBlogById id env s) =
      match gw _ (blogs_single id) with
      | Success _ => None
      | Failure e => Some (message e)
      end /\
    BlogSlice.blogs (dispatch BlogSlice.reducer gw fetchBlogById id env s) =
      BlogSlice.blogs s /\
    BlogSlice.pagination (dispatch BlogSlice.reducer gw fetchBlogById id env s) =
      BlogSlice.pagination s /\
    BlogSlice.loading (dispatch BlogSlice.reducer gw fetchBlogById id env s) =
      false.
Proof.
  intros gw id env s. unfold dispatch.
  rewrite (outcome_one_request gw fetchBlogById id env (blogs_single id)
             (fun data => data) eq_refl).
  simpl fst. destruct (gw _ (blogs_single id)); split_and!; reflexivity.
Qed.

(** X11. Fetching the comments of a post dispatched to completion replaces
    the whole list by the rows returned (an empty list when none came
    back), or keeps the list and reports the gateway's message when the
    request fails; loading ends cleared. *)
Theorem fetchComments_dispatch_replaces_list :
  forall (gw : Gateway) (blogId : string) (env : ThunkEnv)
         (s : CommentSlice.State),
    snd (outcome gw fetchComments blogId env) = [call (comments_select blogId)] /\
    CommentSlice.comments
      (dispatch CommentSlice.reducer gw fetchComments blogId env s) =
      match gw _ (comments_select blogId) with
      | Success rows => data_or_empty rows
      | Failure _ => CommentSlice.comments s
      end /\
    CommentSlice.error
      (dispatch CommentSlice.reducer gw fetchComments blogId env s) =
      match gw _ (comments_select blogId) with
      | Success _ => None
      | Failure e => Some (message e)
      end /\
    CommentSlice.loading
      (dispatch CommentSlice.reducer gw fetchComments blogId env s) = false.
Proof.
  intros gw blogId env s. unfold dispatch.
  rewrite (outcome_one_request gw fetchComments blogId env
             (comments_select blogId) data_or_empty eq_refl).
  simpl fst. destruct (gw _ (comments_select blogId)); split_and!; reflexivity.
Qed.

(** ** The session store *)

(** X12. Register, login and logout dispatched to completion: when the
    gateway fails, user, session and the authenticated flag are exactly what
    they were (logout does not clear them ahead of the answer) and the
    error is the gateway's message; when it succeeds, register and login
    store what the gateway returned and logout stores no user, no session
    and no flag.  Loading ends cleared. *)
Theorem auth_dispatch_keeps_identity_on_failure :
  forall (gw : Gateway) (arg : Credentials) (env : ThunkEnv)
         (s : AuthSlice.State),
    match gw _ (auth_signUp (email arg) (password arg)) with
    | Success data =>
        AuthSlice.user (dispatch AuthSlice.reducer gw registerUser arg env s) =
          data_user data /\
        AuthSlice.session (dispatch AuthSlice.reducer gw registerUser arg env s) =
          data_session data /\
        AuthSlice.error (dispatch AuthSlice.reducer gw registerUser arg env s) =
          None
    | Failure e =>
        AuthSlice.user (dispatch AuthSlice.reducer gw registerUser arg env s) =
          AuthSlice.user s /\
        AuthSlice.session (dispatch AuthSlice.reducer gw registerUser arg env s) =
          AuthSlice.session s /\
        AuthSlice.isAuthenticated
          (dispatch AuthSlice.reducer gw registerUser arg env s) =
          AuthSlice.isAuthenticated s /\
        AuthSlice.error (dispatch AuthSlice.reducer gw registerUser arg env s) =
          Some (message e)
    end /\
    match gw _ (auth_signInWithPassword (email arg) (password arg)) with
    | Success data =>
        AuthSlice.user (dispatch AuthSlice.reducer gw loginUser arg env s) =
          data_user data /\
        AuthSlice.session (dispatch AuthSlice.reducer gw loginUser arg env s) =
          data_session data /\
        AuthSlice.error (dispatch AuthSlice.reducer gw loginUser arg env s) =
          None
    | Failure e =>
        AuthSlice.user (dispatch AuthSlice.reducer gw loginUser arg env s) =
          AuthSlice.user s /\
        AuthSlice.session (dispatch AuthSlice.reducer gw loginUser arg env s) =
          AuthSlice.session s /\
        AuthSlice.isAuthenticated
          (dispatch AuthSlice.reducer gw loginUser arg env s) =
          AuthSlice.isAuthenticated s /\
        AuthSlice.error (dispatch AuthSlice.reducer gw loginUser arg env s) =
          Some (message e)
    end /\
    match gw _ auth_signOut with
    | Success _ =>
        AuthSlice.user (dispatch AuthSlice.reducer gw logoutUser tt env s) =
          None /\
        AuthSlice.session (dispatch AuthSlice.reducer gw logoutUser tt env s) =
          None /\
        AuthSlice.isAuthenticated
          (dispatch AuthSlice.reducer gw logoutUser tt env s) = false
    | Failure e =>
        AuthSlice.user (dispatch AuthSlice.reducer gw logoutUser tt env s) =
          AuthSlice.user s /\
        AuthSlice.session (dispatch AuthSlice.reducer gw logoutUser tt env s) =
          AuthSlice.session s /\
        AuthSlice.isAuthenticated
          (dispatch AuthSlice.reducer gw logoutUser tt env s) =
          AuthSlice.isAuthenticated s /\
        AuthSlice.error (dispatch AuthSlice.reducer gw logoutUser tt env s) =
          Some (message e)
    end /\
    AuthSlice.loading (dispatch AuthSlice.reducer gw registerUser arg env s) =
      false /\
    AuthSlice.loading (dispatch AuthSlice.reducer gw loginUser arg env s) =
      false /\
    AuthSlice.loading (dispatch AuthSlice.reducer gw logoutUser tt env s) =
      false.
Proof.
  intros gw arg env s. unfold dispatch, outcome. simpl.
  destruct (gw _ (auth_signUp _ _));
    destruct (gw _ (auth_signInWithPassword _ _));
    destruct (gw _ auth_signOut); split_and!; reflexivity.
Qed.

(** X13. A session check dispatched to completion overwrites the identity
    from the gateway's answer: the stored user is the user of the returned
    session, so a missing session signs the store out whatever it held; its
    loading flag and error are not touched.  When the lookup fails the
    session store is left exactly as it was. *)
Theorem checkSession_dispatch_rehydrates :
  forall (gw : Gateway) (env : ThunkEnv) (s : AuthSlice.State),
    snd (outcome gw checkSession tt env) = [call auth_getSession] /\
    match gw _ auth_getSession with
    | Success found =>
        AuthSlice.user (dispatch AuthSlice.reducer gw checkSession tt env s) =
          option_map session_user found /\
        AuthSlice.session (dispatch AuthSlice.reducer gw checkSession tt env s) =
          found /\
        AuthSlice.isAuthenticated
          (dispatch AuthSlice.reducer gw checkSession tt env s) =
          bool_decide (is_Some found) /\
        AuthSlice.loading (dispatch AuthSlice.reducer gw checkSession tt env s) =
          AuthSlice.loading s /\
        AuthSlice.error (dispatch AuthSlice.reducer gw checkSession tt env s) =
          AuthSlice.error s
    | Failure _ => dispatch AuthSlice.reducer gw checkSession tt env s = s
    end.
Proof.
  intros gw env s. unfold dispatch, outcome. simpl.
  destruct (gw _ auth_getSession) as [[ss |] | e]; split_and!; reflexivity.
Qed.

(** ** What the slices and thunks never do *)

(** X14. Every slice leaves its state exactly as it was under any action of
    another slice: an operation of the post cache never changes the comment
    cache or the session store, and likewise for the other two. *)
Theorem slices_ignore_foreign_actions :
  forall (a : Action) (sa : AuthSlice.State) (sb : BlogSlice.State)
         (sc : CommentSlice.State),
    match slice_of_action a with
    | Auth => BlogSlice.reducer sb a = sb /\ CommentSlice.reducer sc a = sc
    | Blogs => AuthSlice.reducer sa a = sa /\ CommentSlice.reducer sc a = sc
    | Comments => AuthSlice.reducer sa a = sa /\ BlogSlice.reducer sb a = sb
    end.
Proof.
  intros a sa sb sc.
  destruct a as [| | | | | | A P op | A P op payload | A P op m]; simpl;
    try (split; reflexivity); destruct op; simpl; split; reflexivity.
Qed.

(** X15. No action changes the page size, and only [setPage] changes the
    current page, to whatever number it carries; so in every state the post
    cache reaches the page size is 5. *)
Theorem page_size_is_constant :
  forall (s : BlogSlice.State) (a : Action) (actions : list Action),
    BlogSlice.limit (BlogSlice.pagination (BlogSlice.reducer s a)) =
      BlogSlice.limit (BlogSlice.pagination s) /\
    BlogSlice.page (BlogSlice.pagination (BlogSlice.reducer s a)) =
      match a with
      | blogs_setPage p => p
      | _ => BlogSlice.page (BlogSlice.pagination s)
      end /\
    BlogSlice.limit
      (BlogSlice.pagination
         (reduce_all BlogSlice.reducer actions BlogSlice.initialState)) = 5.
Proof.
  assert (Hstep : forall s a,
             BlogSlice.limit (BlogSlice.pagination (BlogSlice.reducer s a)) =
             BlogSlice.limit (BlogSlice.pagination s) /\
             BlogSlice.page (BlogSlice.pagination (BlogSlice.reducer s a)) =
             match a with
             | blogs_setPage p => p
             | _ => BlogSlice.page (BlogSlice.pagination s)
             end).
  { intros s a.
    destruct a as [| | | | | | A P op | A P op payload | A P op m];
      try (split; reflexivity); destruct op;
      cbv beta iota zeta delta
        [BlogSlice.reducer BlogSlice.on_pending BlogSlice.on_fulfilled
         BlogSlice.on_rejected];
      case_ifs; split; reflexivity. }
  intros s a actions. split_and!; try apply Hstep.
  apply (reduce_all_preserves BlogSlice.reducer
           (fun s => BlogSlice.limit (BlogSlice.pagination s) = 5)).
  - intros s' a' Hs'. destruct (Hstep s' a') as [Hl _]. congruence.
  - reflexivity.
Qed.

(** X16. A thunk issues at most two gateway requests, and a write (create,
    update or delete on posts or comments) at most one, which is never a
    read: no write re-fetches the list, the count or a single row. *)
Theorem writes_never_refetch :
  forall (A P : Type) (op : Op A P) (arg : A) (env : ThunkEnv) (gw : Gateway),
    (length (snd (outcome gw op arg env)) <= 2)%nat /\
    if write_thunk op
    then (length (snd (outcome gw op arg env)) <= 1)%nat /\
         Forall (fun c => is_read_call c = false) (snd (outcome gw op arg env))
    else True.
Proof.
  intros A P op arg env gw.
  destruct op; unfold outcome; simpl;
    try (destruct (not_userId (userId_of env)); simpl);
    repeat match goal with
           | |- context [gw ?T ?q] => destruct (gw T q); simpl
           end;
    split_and?; try exact I; try lia; repeat constructor.
Qed.

(** X17. With a user in the session store, a Create stamps the request with
    that user's id and issues exactly that one request, whether or not the
    authenticated flag is set; a user whose id is the empty string is
    treated as no user at all. *)
Theorem create_stamps_owner :
  forall (gw : Gateway) (env : ThunkEnv) (u : User),
    AuthSlice.user (getState_auth env) = Some u ->
    (forall arg : CreateBlogArg,
        outcome gw createBlog arg env =
        if bool_decide (user_id_of u = "")
        then (rejected createBlog "User not authenticated", [])
        else
          (match gw _ (blogs_insert (cb_title arg) (cb_content arg)
                         (cb_imageUrl arg) (user_id_of u)) with
           | Success data => fulfilled createBlog data
           | Failure e => rejected createBlog (message e)
           end,
           [call (blogs_insert (cb_title arg) (cb_content arg)
                    (cb_imageUrl arg) (user_id_of u))])) /\
    (forall arg : CreateCommentArg,
        outcome gw createComment arg env =
        if bool_decide (user_id_of u = "")
        then (rejected createComment "User not authenticated", [])
        else
          (match gw _ (comments_insert (cc_blogId arg) (user_id_of u)
                         (cc_content arg) (cc_fileUrl arg)) with
           | Success data => fulfilled createComment data
           | Failure e => rejected createComment (message e)
           end,
           [call (comments_insert (cc_blogId arg) (user_id_of u)
                    (cc_content arg) (cc_fileUrl arg))])).
Proof.
  intros gw env u Hu. split; intros arg; unfold outcome; cbn;
    unfold userId_of; rewrite Hu; cbn;
    destruct (bool_decide (user_id_of u = "")); cbn; try reflexivity.
  - destruct (gw _ (blogs_insert _ _ _ _)); reflexivity.
  - destruct (gw _ (comments_insert _ _ _ _)); reflexivity.
Qed.

Lemma create_stamps_owner_witness :
  AuthSlice.user (getState_auth registered_unconfirmed) = Some sample_user /\
  AuthSlice.isAuthenticated (getState_auth registered_unconfirmed) = false /\
  outcome gateway_up createBlog
    {| cb_title := "A"; cb_content := "B"; cb_imageUrl := None |}
    registered_unconfirmed =
  (fulfilled createBlog (sample_blog "b-new"),
   [call (blogs_insert "A" "B" None "u-1")]).
Proof.
  split_and!; [reflexivity | reflexivity |].
  apply (create_stamps_owner gateway_up registered_unconfirmed sample_user
           eq_refl).
Defined.


(** * The pages *)

(** ** The list page: pagination *)

Lemma ceil_div_bounds (a b : Z) :
  0 < b ->
  (BlogList.ceil_div a b - 1) * b < a <= BlogList.ceil_div a b * b.
Proof.
  intros Hb. unfold BlogList.ceil_div.
  pose proof (Z.div_mod (- a) b ltac:(lia)) as Hdm.
  pose proof (Z.mod_pos_bound (- a) b Hb) as Hmod.
  nia.
Qed.

(** X19. With a positive page size, [totalPages] is the least number of
    pages that hold [total] rows.  The range the list fetch requests for
    that last page contains the last row, and the range of the page after
    it starts past the last row. *)
Theorem totalPages_covers_rows :
  forall (gw : Gateway) (env : ThunkEnv) (s : BlogSlice.State),
    0 < BlogSlice.limit (BlogSlice.pagination s) ->
    (BlogList.totalPages s - 1) * BlogSlice.limit (BlogSlice.pagination s)
      < BlogSlice.total (BlogSlice.pagination s)
      <= BlogList.totalPages s * BlogSlice.limit (BlogSlice.pagination s) /\
    exists from to : Z,
      snd (outcome gw fetchBlogs
             {| page := BlogList.totalPages s;
                limit := BlogSlice.limit (BlogSlice.pagination s) |} env) =
        [call blogs_count; call (blogs_range from to)] /\
      from <= BlogSlice.total (BlogSlice.pagination s) - 1 <= to /\
      BlogSlice.total (BlogSlice.pagination s) - 1 < to + 1.
Proof.
  intros gw env s Hl.
  pose proof (ceil_div_bounds (BlogSlice.total (BlogSlice.pagination s))
                (BlogSlice.limit (BlogSlice.pagination s)) Hl) as Hb.
  fold (BlogList.totalPages s) in Hb. split; [exact Hb |].
  rewrite fetchBlogs_outcome. simpl.
  eexists _, _. split; [reflexivity |]. lia.
Qed.

Lemma totalPages_covers_rows_witness :
  0 < BlogSlice.limit (BlogSlice.pagination forty_seven_posts) /\
  (BlogList.totalPages forty_seven_posts - 1)
    * BlogSlice.limit (BlogSlice.pagination forty_seven_posts)
    < BlogSlice.total (BlogSlice.pagination forty_seven_posts)
    <= BlogList.totalPages forty_seven_posts
       * BlogSlice.limit (BlogSlice.pagination forty_seven_posts).
Proof.
  split; [reflexivity |].
  apply (totalPages_covers_rows gateway_up anonymous forty_seven_posts eq_refl).
Defined.

(** X20. With a positive page size, [handlePageChange] only ever dispatches
    a page between 1 and [totalPages]: from a page in that range the current
    page stays in it, the window and the total are untouched, and asking for
    page 0 or for the page after the last one dispatches nothing. *)
Theorem handlePageChange_stays_in_range :
  forall (s : BlogSlice.State) (newPage : Z),
    0 < BlogSlice.limit (BlogSlice.pagination s) ->
    1 <= BlogSlice.page (BlogSlice.pagination s) <= BlogList.totalPages s ->
    1 <= BlogSlice.page
           (BlogSlice.pagination
              (reduce_all BlogSlice.reducer
                 (BlogList.handlePageChange s newPage) s))
      <= BlogList.totalPages
           (reduce_all BlogSlice.reducer (BlogList.handlePageChange s newPage) s) /\
    BlogSlice.blogs
      (reduce_all BlogSlice.reducer (BlogList.handlePageChange s newPage) s) =
      BlogSlice.blogs s /\
    BlogSlice.total
      (BlogSlice.pagination
         (reduce_all BlogSlice.reducer (BlogList.handlePageChange s newPage) s)) =
      BlogSlice.total (BlogSlice.pagination s) /\
    (length (BlogList.handlePageChange s newPage) <= 1)%nat /\
    Forall (fun a => a = blogs_setPage newPage)
      (BlogList.handlePageChange s newPage) /\
    BlogList.handlePageChange s 0 = [] /\
    BlogList.handlePageChange s (BlogList.totalPages s + 1) = [].
Proof.
  intros s newPage _ Hpage. unfold BlogList.handlePageChange.
  split; [| split_and!].
  - destruct ((1 <=? newPage) && (newPage <=? BlogList.totalPages s))
      eqn:Hrange; unfold reduce_all; cbn [fold_left]; [| exact Hpage].
    apply andb_true_iff in Hrange as [H1 H2].
    apply Z.leb_le in H1. apply Z.leb_le in H2.
    change (BlogList.totalPages (BlogSlice.reducer s (blogs_setPage newPage)))
      with (BlogList.totalPages s).
    change (BlogSlice.page
              (BlogSlice.pagination (BlogSlice.reducer s (blogs_setPage newPage))))
      with newPage.
    lia.
  - destruct ((1 <=? newPage) && (newPage <=? BlogList.totalPages s));
      reflexivity.
  - destruct ((1 <=? newPage) && (newPage <=? BlogList.totalPages s));
      reflexivity.
  - destruct ((1 <=? newPage) && (newPage <=? BlogList.totalPages s));
      simpl; lia.
  - destruct ((1 <=? newPage) && (newPage <=? BlogList.totalPages s));
      repeat constructor.
  - reflexivity.
  - destruct (Z.leb_spec (BlogList.totalPages s + 1) (BlogList.totalPages s));
      [lia |]. rewrite andb_false_r. reflexivity.
Qed.

Lemma handlePageChange_stays_in_range_witness :
  0 < BlogSlice.limit (BlogSlice.pagination forty_seven_posts) /\
  1 <= BlogSlice.page (BlogSlice.pagination forty_seven_posts)
    <= BlogList.totalPages forty_seven_posts /\
  BlogList.handlePageChange forty_seven_posts
    (BlogList.totalPages forty_seven_posts + 1) = [].
Proof.
  assert (Hpage : 1 <= BlogSlice.page (BlogSlice.pagination forty_seven_posts)
                    <= BlogList.totalPages forty_seven_posts).
  { vm_compute. split; discriminate. }
  split_and!; [reflexivity | apply Hpage | apply Hpage |].
  apply (handlePageChange_stays_in_range forty_seven_posts 2 eq_refl Hpage).
Defined.

(** ** The register and logout pages *)

(** X21. Submitting the register form first clears the error.  With two
    different passwords nothing else happens: no gateway request, no
    navigation, identity and loading as before.  With equal passwords the
    sign-up request is issued once with the typed email and password, and
    the page navigates to /blogs exactly when the gateway accepts it, also
    when the answer carries no session. *)
Theorem Register_handleSubmit_guards_mismatch :
  forall (gw : Gateway) (env : ThunkEnv) (form : Register.Form)
         (s : AuthSlice.State),
    if bool_decide (Register.form_password form =
                    Register.form_confirmPassword form)
    then
      gateway_calls (Register.handleSubmit gw env form s) =
        [call (auth_signUp (Register.form_email form)
                 (Register.form_password form))] /\
      navigated (Register.handleSubmit gw env form s) =
        match gw _ (auth_signUp (Register.form_email form)
                      (Register.form_password form)) with
        | Success _ => Some "/blogs"
        | Failure _ => None
        end
    else
      gateway_calls (Register.handleSubmit gw env form s) = [] /\
      navigated (Register.handleSubmit gw env form s) = None /\
      store (Register.handleSubmit gw env form s) = AuthSlice.set_error None s.
Proof.
  intros gw env form s. unfold Register.handleSubmit.
  destruct (bool_decide (Register.form_password form =
                         Register.form_confirmPassword form)); simpl.
  - unfold outcome. simpl.
    destruct (gw _ (auth_signUp _ _)); split; reflexivity.
  - split_and!; reflexivity.
Qed.

(** X22. The logout page issues the sign-out request once and always
    navigates to /login; when the gateway fails, the session store still
    holds the user, the session and the authenticated flag. *)
Theorem Logout_always_navigates :
  forall (gw : Gateway) (env : ThunkEnv) (s : AuthSlice.State),
    navigated (Logout.handleLogout gw env s) = Some "/login" /\
    gateway_calls (Logout.handleLogout gw env s) = [call auth_signOut] /\
    match gw _ auth_signOut with
    | Success _ =>
        AuthSlice.user (store (Logout.handleLogout gw env s)) = None /\
        AuthSlice.isAuthenticated (store (Logout.handleLogout gw env s)) = false
    | Failure e =>
        AuthSlice.user (store (Logout.handleLogout gw env s)) = AuthSlice.user s /\
        AuthSlice.session (store (Logout.handleLogout gw env s)) =
          AuthSlice.session s /\
        AuthSlice.isAuthenticated (store (Logout.handleLogout gw env s)) =
          AuthSlice.isAuthenticated s
    end.
Proof.
  intros gw env s. unfold Logout.handleLogout, dispatch, outcome. simpl.
  destruct (gw _ auth_signOut); split_and!; reflexivity.
Qed.

(** ** File names *)

Section Split.

Variable sep : ascii.

Lemma split_nonempty (s : string) :
  exists seg rest, split sep s = seg :: rest.
Proof.
  destruct s as [| c s']; simpl; [eauto |].
  destruct (bool_decide (c = sep)); [eauto |].
  destruct (split sep s'); eauto.
Qed.

Lemma split_clean_segments (s : string) : Forall (lacks sep) (split sep s).
Proof.
  induction s as [| c s' IH]; simpl.
  - repeat constructor. intros [].
  - destruct (bool_decide (c = sep)) eqn:Hc.
    + constructor; [intros [] | exact IH].
    + apply bool_decide_eq_false in Hc.
      destruct (split sep s') as [| seg rest].
      * repeat constructor. simpl. intros [H | []]. congruence.
      * inversion IH as [| ? ? Hseg Hrest]; subst. constructor; [| exact Hrest].
        simpl. intros [H | H]; [congruence | exact (Hseg H)].
Qed.

Lemma split_clean (s : string) : lacks sep s -> split sep s = [s].
Proof.
  induction s as [| c s' IH]; simpl; intros Hclean; [reflexivity |].
  destruct (bool_decide (c = sep)) eqn:Hc.
  - apply bool_decide_eq_true in Hc. exfalso. apply Hclean. left. exact Hc.
  - rewrite IH; [reflexivity |]. intros H. apply Hclean. right. exact H.
Qed.

Lemma split_single (s seg : string) : split sep s = [seg] -> s = seg.
Proof.
  revert seg. induction s as [| c s' IH]; simpl; intros seg Hs.
  - congruence.
  - destruct (bool_decide (c = sep)).
    + destruct (split_nonempty s') as (x & l & Hx). rewrite Hx in Hs.
      discriminate Hs.
    + destruct (split sep s') as [| seg' rest] eqn:Hsplit.
      * destruct (split_nonempty s') as (x & l & Hx). congruence.
      * injection Hs as <- ->. rewrite (IH seg' eq_refl). reflexivity.
Qed.

Lemma pop_clean (s : string) : lacks sep (pop (split sep s)).
Proof.
  pose proof (split_clean_segments s) as Hall.
  destruct (split_nonempty s) as (seg & rest & Hs). rewrite Hs in *.
  unfold pop. clear Hs. revert seg Hall.
  induction rest as [| r rest IH]; intros seg Hall.
  - inversion Hall; assumption.
  - inversion Hall; subst. apply (IH r). assumption.
Qed.

(** The last segment is what follows the last separator, or the whole
    string when there is none. *)
Lemma pop_split_suffix (s : string) :
  exists prefix,
    s = prefix +:+ pop (split sep s) /\
    (prefix = EmptyString \/ exists p, prefix = p +:+ String sep EmptyString).
Proof.
  induction s as [| c s' IH].
  - exists EmptyString. split; [reflexivity | left; reflexivity].
  - destruct IH as (prefix' & Hs' & Hprefix').
    destruct (split_nonempty s') as (seg & rest & Hsplit).
    cbn [split]. destruct (bool_decide (c = sep)) eqn:Hc.
    + apply bool_decide_eq_true in Hc. subst c.
      exists (String sep prefix'). split.
      * rewrite Hsplit in *.
        change (pop (EmptyString :: seg :: rest)) with (pop (seg :: rest)).
        exact (f_equal (String sep) Hs').
      * right. destruct Hprefix' as [-> | (p & ->)].
        -- exists EmptyString. reflexivity.
        -- exists (String sep p). reflexivity.
    + rewrite Hsplit. destruct rest as [| r rest].
      * exists EmptyString. split; [| left; reflexivity].
        rewrite (split_single s' seg Hsplit). reflexivity.
      * exists (String c prefix'). split.
        -- rewrite Hsplit in Hs'.
           change (pop (String c seg :: r :: rest)) with (pop (seg :: r :: rest)).
           exact (f_equal (String c) Hs').
        -- right. destruct Hprefix' as [-> | (p & ->)].
           ++ exfalso. change (EmptyString +:+ ?x) with x in Hs'.
              pose proof (pop_clean s') as Hclean.
              rewrite <- Hs' in Hclean.
              rewrite (split_clean s' Hclean) in Hsplit. discriminate Hsplit.
           ++ exists (String c p). reflexivity.
Qed.

End Split.

(** X23. The extension the upload paths are built with is what follows the
    last dot of the file name: it contains no dot, the name ends with it,
    right after a dot unless it is the whole name, and it is the whole name
    exactly when the name has no dot at all. *)
Theorem fileExt_is_after_last_dot :
  forall name : string,
    lacks "." (fileExt name) /\
    (exists prefix,
        name = prefix +:+ fileExt name /\
        (prefix = "" \/ exists p, prefix = p +:+ ".")) /\
    (fileExt name = name <-> lacks "." name).
Proof.
  intros name. unfold fileExt. split_and!.
  - apply pop_clean.
  - apply pop_split_suffix.
  - split.
    + intros Heq. rewrite <- Heq. apply pop_clean.
    + intros Hclean. rewrite (split_clean _ name Hclean). reflexivity.
Qed.

(** ** The forms that upload a file *)

Lemma CommentForm_resolve_cases (st : Storage) (now : string)
    (user : option User) (props : CommentForm.Props) (form : CommentForm.Form) :
  (fst (CommentForm.resolve_fileUrl st now user props form) =
     CommentForm.initialFileUrl props \/
   (fst (CommentForm.resolve_fileUrl st now user props form) = None /\
    CommentForm.file form = None /\
    truthy_string (CommentForm.filePreview form) = false) \/
   exists path f,
     CommentForm.file form = Some f /\
     snd (CommentForm.resolve_fileUrl st now user props form) = [path] /\
     upload st path f = None /\
     fst (CommentForm.resolve_fileUrl st now user props form) =
       Some (getPublicUrl st path)) /\
  (length (snd (CommentForm.resolve_fileUrl st now user props form)) <= 1)%nat /\
  (user = None ->
   snd (CommentForm.resolve_fileUrl st now user props form) = []).
Proof.
  unfold CommentForm.resolve_fileUrl, CommentForm.uploadFile.
  destruct (CommentForm.file form) as [f |].
  - destruct user as [u |]; simpl.
    + destruct (upload st _ f) eqn:Hup; simpl.
      * split_and!; [left; reflexivity | lia | discriminate].
      * split_and!; [| lia | discriminate].
        right. right. eexists _, f. split_and!; try reflexivity. exact Hup.
    + split_and!; [left; reflexivity | lia | reflexivity].
  - destruct (truthy_string (CommentForm.filePreview form)) eqn:Hprev; simpl.
    + split_and!; [left; reflexivity | lia | reflexivity].
    + destruct (truthy_string (CommentForm.initialFileUrl props)); simpl.
      * split_and!; [| lia | reflexivity]. right. left. auto.
      * split_and!; [left; reflexivity | lia | reflexivity].
Qed.



(** X25. Submitting the comment form for a new comment, with a user in the
    session store, issues exactly one request: the insert for the shown
    post, stamped with the user's id and carrying the typed content.  The
    attachment URL is null or the initial one unless an upload succeeded, so
    a failed upload still posts the comment, without the new file. *)
Theorem CommentForm_create_sends_one_insert :
  forall (gw : Gateway) (st : Storage) (now : string) (env : ThunkEnv)
         (props : CommentForm.Props) (form : CommentForm.Form)
         (s : CommentSlice.State) (u : User),
    CommentForm.editingCommentId props = None ->
    AuthSlice.user (getState_auth env) = Some u ->
    user_id_of u <> "" ->
    exists url : option string,
      gateway_calls (CommentForm.handleSubmit gw st now env props form s) =
        [call (comments_insert (CommentForm.blogId props) (user_id_of u)
                 (CommentForm.content form) url)] /\
      (url = CommentForm.initialFileUrl props \/
       (url = None /\ CommentForm.file form = None /\
        truthy_string (CommentForm.filePreview form) = false) \/
       exists path f,
         CommentForm.file form = Some f /\
         uploads (CommentForm.handleSubmit gw st now env props form s) = [path] /\
         upload st path f = None /\
         url = Some (getPublicUrl st path)).
Proof.
  intros gw st now env props form s u Hnew Hu Hne.
  pose proof (CommentForm_resolve_cases st now
                (AuthSlice.user (getState_auth env)) props form)
    as (Hcases & _ & _).
  unfold CommentForm.handleSubmit.
  destruct (CommentForm.resolve_fileUrl st now _ props form) as [url ups].
  rewrite Hnew. cbn [truthy_string].
  exists url. cbn [gateway_calls uploads]. split; [| exact Hcases].
  unfold outcome. cbn. unfold userId_of. rewrite Hu. cbn.
  rewrite bool_decide_eq_false_2 by exact Hne. cbn.
  destruct (gw _ (comments_insert _ _ _ _)); reflexivity.
Qed.

Lemma CommentForm_create_sends_one_insert_witness :
  CommentForm.editingCommentId new_comment = None /\
  AuthSlice.user (getState_auth signed_in) = Some sample_user /\
  user_id_of sample_user <> "" /\
  exists url : option string,
    gateway_calls
      (CommentForm.handleSubmit gateway_up storage_full "1714728600000"
         signed_in new_comment new_file_chosen comments_loading) =
      [call (comments_insert "b-1" "u-1" "nicer" url)].
Proof.
  split_and!; [reflexivity | reflexivity | discriminate |].
  destruct (CommentForm_create_sends_one_insert gateway_up storage_full
              "1714728600000" signed_in new_comment new_file_chosen
              comments_loading sample_user eq_refl eq_refl ltac:(discriminate))
    as (url & Hcalls & _).
  exists url. exact Hcalls.
Defined.




